(** * A shallow embedding of the LDAP client of [ldap-client.go]

    The client is one struct, [LDAPClient], with six methods: [Connect],
    [Close], [SearchUser], [Authenticate], [GetGroupsOfUser] and [FindUsers]
    drive one connection of the package [gopkg.in/ldap.v2].  The directory
    server and the transport are outside the repository: they are modelled
    as a [Server], a record of answer functions that see the history of the
    calls made so far, and every call the client makes is recorded in that
    history.  A method is a function from the state (the client struct and
    the history) to an [Outcome]: it returns a value and a state, or it
    panics, as Go does on a nil connection or an index out of range. *)

From Stdlib Require Import ZArith Lia Ascii.
From Equations Require Import Equations.
From stdpp Require Import base tactics option list strings pretty gmap.

Local Open Scope Z_scope.
Local Open Scope string_scope.

(** ** Go values *)

(** [error]: [errors.New text], or an error value made by the ldap package
    or the transport below it (result code and description). *)
Inductive error : Type :=
| errors_New (text : string)
| ldap_Error (code : Z) (text : string).

(** [time.Second], a [time.Duration] in nanoseconds. *)
Definition time_Second : Z := 1000000000.

Module tls.
Record Config : Type := mkConfig {
  InsecureSkipVerify : bool;
  ServerName : string
}.
End tls.

Module ldap.

(** [*ldap.Conn]: a connection is known by the position of the dial that
    made it in the history. *)
Definition Conn : Type := nat.

Definition ScopeWholeSubtree : Z := 2.
Definition NeverDerefAliases : Z := 0.

Record EntryAttribute : Type := mkEntryAttribute {
  Name : string;
  Values : list string
}.

Record Entry : Type := mkEntry {
  DN : string;
  Attributes : list EntryAttribute
}.

(** [ldap.Control] is an interface; the client passes none. *)
Definition Control : Type := string.

Record SearchRequest : Type := NewSearchRequest {
  BaseDN : string;
  Scope : Z;
  DerefAliases : Z;
  SizeLimit : Z;
  TimeLimit : Z;
  TypesOnly : bool;
  Filter : string;
  ReqAttributes : list string;
  Controls : list Control
}.

(** Of [ldap.SearchResult] the client reads [Entries] only. *)
Record SearchResult : Type := mkSearchResult {
  Entries : list Entry
}.

(** Modelled from the spec: [Entry.GetAttributeValues] of gopkg.in/ldap.v2,
    which is not part of this repository: the values of the first attribute
    of that name, or no values. *)
Fixpoint GetAttributeValues (attrs : list EntryAttribute) (attribute : string)
  : list string :=
  match attrs with
  | [] => []
  | attr :: rest =>
      if String.eqb (Name attr) attribute then Values attr
      else GetAttributeValues rest attribute
  end.

(** Modelled from the spec: [Entry.GetAttributeValue] of gopkg.in/ldap.v2,
    "a lookup from attribute name to its first string value", the empty
    string when the entry has no value for it. *)
Definition GetAttributeValue (e : Entry) (attribute : string) : string :=
  match GetAttributeValues (Attributes e) attribute with
  | [] => ""
  | v :: _ => v
  end.

End ldap.

(** ** The client struct *)

Record LDAPClient : Type := mkLDAPClient {
  Conn : option ldap.Conn;
  Host : string;
  Port : Z;
  UseSSL : bool;
  BindDN : string;
  BindPassword : string;
  GroupFilter : string;
  UserFilter : string;
  Base : string;
  Attributes : list string;
  ServerName : string
}.

(** [lc.Conn = l] *)
Definition with_Conn (lc : LDAPClient) (l : option ldap.Conn) : LDAPClient :=
  {| Conn := l; Host := Host lc; Port := Port lc; UseSSL := UseSSL lc;
     BindDN := BindDN lc; BindPassword := BindPassword lc;
     GroupFilter := GroupFilter lc; UserFilter := UserFilter lc;
     Base := Base lc; Attributes := Attributes lc;
     ServerName := ServerName lc |}.

(** ** The world outside the client *)

(** What the client does to the outside, in the order it does it. *)
Inductive Event : Type :=
| EvDial (network address : string)
| EvStartTLS (l : ldap.Conn) (config : tls.Config)
| EvDialTLS (network address : string) (config : tls.Config)
| EvBind (l : ldap.Conn) (username password : string)
| EvSearch (l : ldap.Conn) (req : ldap.SearchRequest)
| EvClose (l : ldap.Conn)
| EvLog (req : ldap.SearchRequest) (retry : Z)
| EvSleep (d : Z).

(** The collaborator: each answer may depend on every call made before. *)
Record Server : Type := mkServer {
  on_Dial : list Event -> string -> string -> option error;
  on_StartTLS : list Event -> ldap.Conn -> tls.Config -> option error;
  on_DialTLS : list Event -> string -> string -> tls.Config -> option error;
  on_Bind : list Event -> ldap.Conn -> string -> string -> option error;
  on_Search : list Event -> ldap.Conn -> ldap.SearchRequest ->
              ldap.SearchResult + error
}.

Record State : Type := mkState {
  client : LDAPClient;
  history : list Event
}.

Inductive Outcome (A : Type) : Type :=
| Returned (a : A) (s : State)
| Panicked (s : State).
Arguments Returned {A} a s.
Arguments Panicked {A} s.

(** ** The monad of methods *)

Definition M (A : Type) : Type := State -> Outcome A.

Definition ret {A} (a : A) : M A := fun s => Returned a s.

Definition bind {A B} (m : M A) (k : A -> M B) : M B :=
  fun s => match m s with
           | Returned a s' => k a s'
           | Panicked s' => Panicked s'
           end.

Definition panic {A} : M A := fun s => Panicked s.

Declare Scope go_scope.
Delimit Scope go_scope with go.
Notation "'let*' x := m 'in' k" := (bind m (fun x => k))
  (at level 10, x name, m at level 100, k at level 200) : go_scope.
Local Open Scope go_scope.

Definition get_client : M LDAPClient := fun s => Returned (client s) s.

Definition set_Conn (l : option ldap.Conn) : M unit :=
  fun s => Returned tt {| client := with_Conn (client s) l; history := history s |}.

Definition emit (e : Event) : M unit :=
  fun s => Returned tt {| client := client s; history := history s ++ [e] |}.

Definition past : M (list Event) := fun s => Returned (history s) s.

(** [*lc.Conn]: a nil connection cannot be called. *)
Definition deref (l : option ldap.Conn) : M ldap.Conn :=
  match l with
  | Some c => ret c
  | None => panic
  end.

(** [xs[i]] *)
Definition index {A} (xs : list A) (i : nat) : M A :=
  match xs !! i with
  | Some x => ret x
  | None => panic
  end.

(** [for _, x := range xs { acc = body x acc }] *)
Fixpoint for_range {A S} (xs : list A) (body : A -> S -> M S) (acc : S) : M S :=
  match xs with
  | [] => ret acc
  | x :: rest => let* acc' := body x acc in for_range rest body acc'
  end.

Section Client.

Variable srv : Server.

(** [fmt.Sprintf(format, a)] with one string operand, of Go's library. *)
Variable Sprintf : string -> string -> string.

(** *** Calls into the ldap package *)

Definition ldap_Dial (network address : string) : M (ldap.Conn + error) :=
  let* h := past in
  let* _ := emit (EvDial network address) in
  match on_Dial srv h network address with
  | None => ret (inl (length h))
  | Some err => ret (inr err)
  end.

Definition ldap_DialTLS (network address : string) (config : tls.Config)
  : M (ldap.Conn + error) :=
  let* h := past in
  let* _ := emit (EvDialTLS network address config) in
  match on_DialTLS srv h network address config with
  | None => ret (inl (length h))
  | Some err => ret (inr err)
  end.

Definition Conn_StartTLS (l : ldap.Conn) (config : tls.Config) : M (option error) :=
  let* h := past in
  let* _ := emit (EvStartTLS l config) in
  ret (on_StartTLS srv h l config).

Definition Conn_Bind (l : ldap.Conn) (username password : string) : M (option error) :=
  let* h := past in
  let* _ := emit (EvBind l username password) in
  ret (on_Bind srv h l username password).

(** When [Search] returns an error the client never reads the result that
    comes with it, so the two are one sum. *)
Definition Conn_Search (l : ldap.Conn) (req : ldap.SearchRequest)
  : M (ldap.SearchResult + error) :=
  let* h := past in
  let* _ := emit (EvSearch l req) in
  ret (on_Search srv h l req).

Definition Conn_Close (l : ldap.Conn) : M unit := emit (EvClose l).

Definition log_Printf (req : ldap.SearchRequest) (retry : Z) : M unit :=
  emit (EvLog req retry).

Definition time_Sleep (d : Z) : M unit := emit (EvSleep d).

(** *** Connect (lines 29-58) *)

Definition Connect : M (option error) :=
  let* lc := get_client in
  match Conn lc with
  | None =>
      let address := Host lc +:+ ":" +:+ pretty (Port lc) in
      if negb (UseSSL lc) then
        let* r := ldap_Dial "tcp" address in
        match r with
        | inr err => ret (Some err)
        | inl l =>
            let* err := Conn_StartTLS l (tls.mkConfig true "") in
            match err with
            | Some err => ret (Some err)
            | None => let* _ := set_Conn (Some l) in ret None
            end
        end
      else
        let* r := ldap_DialTLS "tcp" address (tls.mkConfig false (ServerName lc)) in
        match r with
        | inr err => ret (Some err)
        | inl l => let* _ := set_Conn (Some l) in ret None
        end
  | Some _ => ret None
  end.

(** *** Close (lines 61-65) *)

Definition Close : M unit :=
  let* lc := get_client in
  match Conn lc with
  | Some l => Conn_Close l
  | None => ret tt
  end.

(** *** The retry loop (lines 83-89, 188-194 and 222-228)

    The three methods that retry hold the same statements; they are
    modelled once.  [retry_body] is one turn of the loop, [retry_loop] the
    [for] statement from a given [sr, err] and [retry]. *)

Definition retry_body (l : ldap.Conn) (searchRequest : ldap.SearchRequest)
  (retry : Z) : M (ldap.SearchResult + error) :=
  let* r := Conn_Search l searchRequest in
  let* _ := log_Printf searchRequest retry in
  let* _ := time_Sleep (time_Second * retry) in
  ret r.

Equations retry_loop (l : ldap.Conn) (searchRequest : ldap.SearchRequest)
  (r : ldap.SearchResult + error) (retry : Z) (s : State)
  : Outcome (ldap.SearchResult + error) by wf (Z.to_nat (4 - retry)) lt :=
retry_loop l searchRequest (inl sr) retry s := Returned (inl sr) s;
retry_loop l searchRequest (inr err) retry s with decide (retry <= 3) := {
  | left _ with retry_body l searchRequest retry s := {
      | Returned r' s' => retry_loop l searchRequest r' (retry + 1) s'
      | Panicked s' => Panicked s' }
  | right _ => Returned (inr err) s }.
Next Obligation. lia. Qed.

(** [sr, err := lc.Conn.Search(searchRequest); retry := 3; for ...] *)
Definition search_with_retry (l : ldap.Conn) (searchRequest : ldap.SearchRequest)
  : M (ldap.SearchResult + error) :=
  let* r := Conn_Search l searchRequest in
  let retry := 3 in
  retry_loop l searchRequest r retry.

(** [for _, attr := range lc.Attributes { user[attr] = entries[i].GetAttributeValue(attr) }] *)
Definition fill_user (attrs : list string) (entries : list ldap.Entry) (i : nat)
  (user : gmap string string) : M (gmap string string) :=
  for_range attrs
    (fun attr user =>
       let* e := index entries i in
       ret (<[attr := ldap.GetAttributeValue e attr]> user))
    user.

(** *** SearchUser (lines 67-109) *)

Definition SearchUser (username : string)
  : M (option (gmap string string) * option error) :=
  let* err := Connect in
  match err with
  | Some err => ret (None, Some err)
  | None =>
      let* lc := get_client in
      let searchRequest :=
        ldap.NewSearchRequest (Base lc)
          ldap.ScopeWholeSubtree ldap.NeverDerefAliases 0 0 false
          (Sprintf (UserFilter lc) username)
          (Attributes lc)
          [] in
      let* l := deref (Conn lc) in
      let* r := search_with_retry l searchRequest in
      match r with
      | inr err => ret (None, Some err)
      | inl sr =>
          if (length (ldap.Entries sr) <? 1)%nat then
            ret (None, Some (errors_New "User does not exist"))
          else if (1 <? length (ldap.Entries sr))%nat then
            ret (None, Some (errors_New "Too many entries returned"))
          else
            let* user := fill_user (Attributes lc) (ldap.Entries sr) 0 ∅ in
            ret (Some user, None)
      end
  end.

(** *** Authenticate (lines 112-170) *)

Definition Authenticate (username password : string)
  : M (bool * option (gmap string string) * option error) :=
  let* err := Connect in
  match err with
  | Some err => ret (false, None, Some err)
  | None =>
      let* lc := get_client in
      let* l := deref (Conn lc) in
      let* err :=
        if negb (BindDN lc =? "") && negb (BindPassword lc =? "") then
          Conn_Bind l (BindDN lc) (BindPassword lc)
        else ret None in
      match err with
      | Some err => ret (false, None, Some err)
      | None =>
          let attributes := (Attributes lc ++ ["dn"])%list in
          let searchRequest :=
            ldap.NewSearchRequest (Base lc)
              ldap.ScopeWholeSubtree ldap.NeverDerefAliases 0 0 false
              (Sprintf (UserFilter lc) username)
              attributes
              [] in
          let* r := Conn_Search l searchRequest in
          match r with
          | inr err => ret (false, None, Some err)
          | inl sr =>
              if (length (ldap.Entries sr) <? 1)%nat then
                ret (false, None, Some (errors_New "User does not exist"))
              else if (1 <? length (ldap.Entries sr))%nat then
                ret (false, None, Some (errors_New "Too many entries returned"))
              else
                let* e0 := index (ldap.Entries sr) 0 in
                let userDN := ldap.DN e0 in
                let* user := fill_user (Attributes lc) (ldap.Entries sr) 0 ∅ in
                let* err := Conn_Bind l userDN password in
                match err with
                | Some err => ret (false, Some user, Some err)
                | None =>
                    if negb (BindDN lc =? "") && negb (BindPassword lc =? "") then
                      let* err := Conn_Bind l (BindDN lc) (BindPassword lc) in
                      match err with
                      | Some err => ret (true, Some user, Some err)
                      | None => ret (true, Some user, None)
                      end
                    else ret (true, Some user, None)
                end
          end
      end
  end.

(** *** GetGroupsOfUser (lines 173-204) *)

Definition GetGroupsOfUser (username : string)
  : M (option (list string) * option error) :=
  let* err := Connect in
  match err with
  | Some err => ret (None, Some err)
  | None =>
      let* lc := get_client in
      let searchRequest :=
        ldap.NewSearchRequest (Base lc)
          ldap.ScopeWholeSubtree ldap.NeverDerefAliases 0 0 false
          (Sprintf (GroupFilter lc) username)
          ["cn"]
          [] in
      let* l := deref (Conn lc) in
      let* r := search_with_retry l searchRequest in
      match r with
      | inr err => ret (None, Some err)
      | inl sr =>
          let* groups :=
            for_range (ldap.Entries sr)
              (fun entry groups => ret (groups ++ [ldap.GetAttributeValue entry "cn"])%list)
              [] in
          ret (Some groups, None)
      end
  end.

(** *** FindUsers (lines 206-248) *)

Definition FindUsers (search : string)
  : M (option (list (gmap string string)) * option error) :=
  let* err := Connect in
  match err with
  | Some err => ret (None, Some err)
  | None =>
      let* lc := get_client in
      let searchRequest :=
        ldap.NewSearchRequest (Base lc)
          ldap.ScopeWholeSubtree ldap.NeverDerefAliases 0 0 false
          (Sprintf (UserFilter lc) search)
          (Attributes lc)
          [] in
      let* l := deref (Conn lc) in
      let* r := search_with_retry l searchRequest in
      match r with
      | inr err => ret (None, Some err)
      | inl sr =>
          if (length (ldap.Entries sr) <? 1)%nat then
            ret (None, Some (errors_New "User does not exist"))
          else
            let* users :=
              for_range (ldap.Entries sr)
                (fun ldap_user users =>
                   let* user :=
                     for_range (Attributes lc)
                       (fun attr user =>
                          ret (<[attr := ldap.GetAttributeValue ldap_user attr]> user))
                       ∅ in
                   ret (users ++ [user])%list)
                [] in
            ret (Some users, None)
      end
  end.

End Client.

(** ** A directory to run the client against

    The scenario of the specification: base [dc=example,dc=com], users
    found by [(uid=%s)], groups by [(memberUid=%s)]; alice exists once,
    bob is a member of admins and devs, and [(uid=smith)] matches both of them. *)

(** A formatter that agrees with [fmt.Sprintf] on a format whose only verb
    is one [%s], the form the struct's comments give for both filters. *)
Fixpoint Sprintf_s (format a : string) : string :=
  match format with
  | EmptyString => EmptyString
  | String c rest =>
      match rest with
      | String d rest' =>
          if (Ascii.eqb c "%"%char && Ascii.eqb d "s"%char)%bool then a +:+ rest'
          else String c (Sprintf_s rest a)
      | EmptyString => String c EmptyString
      end
  end.

Definition alice : ldap.Entry :=
  ldap.mkEntry "uid=alice,ou=people,dc=example,dc=com"
    [ldap.mkEntryAttribute "cn" ["Alice A"];
     ldap.mkEntryAttribute "mail" ["alice@example.com"]].

Definition bob : ldap.Entry :=
  ldap.mkEntry "uid=bob,ou=people,dc=example,dc=com"
    [ldap.mkEntryAttribute "cn" ["Bob B"; "Robert B"]].

Definition admins : ldap.Entry :=
  ldap.mkEntry "cn=admins,ou=groups,dc=example,dc=com"
    [ldap.mkEntryAttribute "cn" ["admins"]].

Definition devs : ldap.Entry :=
  ldap.mkEntry "cn=devs,ou=groups,dc=example,dc=com"
    [ldap.mkEntryAttribute "cn" ["devs"]].

Definition matching (filter : string) : list ldap.Entry :=
  if filter =? "(uid=alice)" then [alice]
  else if filter =? "(uid=bob)" then [bob]
  else if filter =? "(uid=smith)" then [alice; bob]
  else if filter =? "(memberUid=bob)" then [admins; devs]
  else [].

Definition credentials : list (string * string) :=
  [("cn=reader,dc=example,dc=com", "readonly");
   (ldap.DN alice, "wonderland");
   (ldap.DN bob, "builder")].

Definition invalid_credentials : error := ldap_Error 49 "Invalid Credentials".
Definition network_error : error := ldap_Error 200 "Network Error".

(** A server that is up: every dial and search succeeds, a bind succeeds
    with a known pair of name and password. *)
Definition directory : Server :=
  {| on_Dial := fun _ _ _ => None;
     on_StartTLS := fun _ _ _ => None;
     on_DialTLS := fun _ _ _ _ => None;
     on_Bind := fun _ _ username password =>
       if bool_decide ((username, password) ∈ credentials) then None
       else Some invalid_credentials;
     on_Search := fun _ _ req => inl (ldap.mkSearchResult (matching (ldap.Filter req))) |}.

Definition is_search (e : Event) : bool :=
  match e with EvSearch _ _ => true | _ => false end.

Definition is_dial (e : Event) : bool :=
  match e with EvDial _ _ | EvDialTLS _ _ _ => true | _ => false end.

Definition is_bind (e : Event) : bool :=
  match e with EvBind _ _ _ => true | _ => false end.

(** The number of dials, searches, binds in a history. *)
Definition dials (h : list Event) : nat := length (filter is_dial h).
Definition searches (h : list Event) : nat := length (filter is_search h).
Definition binds (h : list Event) : list Event := filter is_bind h.

(** The delays slept, in order. *)
Definition sleeps (h : list Event) : list Z :=
  omap (fun e => match e with EvSleep d => Some d | _ => None end) h.

(** [flaky n srv]: the first [n] searches fail, then [srv] answers. *)
Definition flaky (n : nat) (srv : Server) : Server :=
  {| on_Dial := on_Dial srv;
     on_StartTLS := on_StartTLS srv;
     on_DialTLS := on_DialTLS srv;
     on_Bind := on_Bind srv;
     on_Search := fun h l req =>
       if (searches h <? n)%nat then inr network_error else on_Search srv h l req |}.

(** [picky srv]: binds of the reader are refused once a user has bound. *)
Definition picky (srv : Server) : Server :=
  {| on_Dial := on_Dial srv;
     on_StartTLS := on_StartTLS srv;
     on_DialTLS := on_DialTLS srv;
     on_Bind := fun h l username password =>
       if (1 <? length (binds h))%nat then Some invalid_credentials
       else on_Bind srv h l username password;
     on_Search := on_Search srv |}.

Definition example_client : LDAPClient :=
  {| Conn := None; Host := "ldap.example.com"; Port := 389; UseSSL := false;
     BindDN := "cn=reader,dc=example,dc=com"; BindPassword := "readonly";
     GroupFilter := "(memberUid=%s)"; UserFilter := "(uid=%s)";
     Base := "dc=example,dc=com"; Attributes := ["cn"; "mail"];
     ServerName := "ldap.example.com" |}.

(** The same client without the reader's credentials, over TLS. *)
Definition anonymous_client : LDAPClient :=
  {| Conn := None; Host := "ldap.example.com"; Port := 636; UseSSL := true;
     BindDN := ""; BindPassword := "readonly";
     GroupFilter := "(memberUid=%s)"; UserFilter := "(uid=%s)";
     Base := "dc=example,dc=com"; Attributes := ["cn"; "mail"];
     ServerName := "ldap.example.com" |}.

Definition start (lc : LDAPClient) : State := {| client := lc; history := [] |}.

(** The state a run ends in. *)
Definition state_of {A} (o : Outcome A) : State :=
  match o with
  | Returned _ s => s
  | Panicked s => s
  end.

(** The example client once connected to the directory. *)
Definition connected : State :=
  state_of (Connect directory (start example_client)).

(** The states in which the searches of the examples end. *)
Definition sought (srv : Server) (filter : string) (attrs : list string) : State :=
  state_of
    (search_with_retry srv 0%nat
       (ldap.NewSearchRequest "dc=example,dc=com"
          ldap.ScopeWholeSubtree ldap.NeverDerefAliases 0 0 false filter attrs [])
       connected).

Definition alice_found : State := sought (flaky 1 directory) "(uid=alice)" ["cn"; "mail"].
Definition carol_sought : State := sought directory "(uid=carol)" ["cn"; "mail"].
Definition carol_groups_sought : State := sought directory "(memberUid=carol)" ["cn"].
Definition smith_sought : State := sought directory "(uid=smith)" ["cn"; "mail"].

(** The steps of authenticating alice on the example client. *)
Definition reader_bind : Event :=
  EvBind 0%nat "cn=reader,dc=example,dc=com" "readonly".

Definition auth_search (username : string) : Event :=
  EvSearch 0%nat
    (ldap.NewSearchRequest "dc=example,dc=com"
       ldap.ScopeWholeSubtree ldap.NeverDerefAliases 0 0 false
       (Sprintf_s "(uid=%s)" username) ["cn"; "mail"; "dn"] []).

Definition alice_bind (password : string) : Event :=
  EvBind 0%nat (ldap.DN alice) password.

(** ** Vocabulary of the properties *)

(** The two errors the client makes itself. *)
Definition NotFound : error := errors_New "User does not exist".
Definition AmbiguousResult : error := errors_New "Too many entries returned".

(** The request [SearchUser] and [FindUsers] build (lines 73-79, 212-218). *)
Definition user_request (Sprintf : string -> string -> string)
  (lc : LDAPClient) (username : string) : ldap.SearchRequest :=
  ldap.NewSearchRequest (Base lc)
    ldap.ScopeWholeSubtree ldap.NeverDerefAliases 0 0 false
    (Sprintf (UserFilter lc) username) (Attributes lc) [].

(** The request [Authenticate] builds (lines 126-134). *)
Definition auth_request (Sprintf : string -> string -> string)
  (lc : LDAPClient) (username : string) : ldap.SearchRequest :=
  ldap.NewSearchRequest (Base lc)
    ldap.ScopeWholeSubtree ldap.NeverDerefAliases 0 0 false
    (Sprintf (UserFilter lc) username) (Attributes lc ++ ["dn"])%list [].

(** The request [GetGroupsOfUser] builds (lines 179-185). *)
Definition group_request (Sprintf : string -> string -> string)
  (lc : LDAPClient) (username : string) : ldap.SearchRequest :=
  ldap.NewSearchRequest (Base lc)
    ldap.ScopeWholeSubtree ldap.NeverDerefAliases 0 0 false
    (Sprintf (GroupFilter lc) username) ["cn"] [].

(** The condition of lines 119 and 162. *)
Definition privileged (lc : LDAPClient) : bool :=
  negb (BindDN lc =? "") && negb (BindPassword lc =? "").

(** The bind of lines 119-124 as one step: the error it leaves, if any. *)
Definition first_bind (srv : Server) (l : ldap.Conn) (lc : LDAPClient)
  : M (option error) :=
  if privileged lc then Conn_Bind srv l (BindDN lc) (BindPassword lc)
  else ret None.

(** What the loops of lines 103-106, 150-153 and 240-243 leave in [user]. *)
Definition record_onto (user : gmap string string) (attrs : list string)
  (e : ldap.Entry) : gmap string string :=
  foldl (fun user attr => <[attr := ldap.GetAttributeValue e attr]> user) user attrs.

(** [user] is the record of [e] over [attrs]: its keys are [attrs], each
    mapped to the entry's single value for it. *)
Definition is_record (user : gmap string string) (attrs : list string)
  (e : ldap.Entry) : Prop :=
  (forall attr, attr ∈ attrs -> user !! attr = Some (ldap.GetAttributeValue e attr)) /\
  (forall attr, attr ∉ attrs -> user !! attr = None).

(** The state once more calls are in the history. *)
Definition after (s : State) (evs : list Event) : State :=
  {| client := client s; history := history s ++ evs |}.

(** The claim's words for a client without the reader's credentials:
    [Authenticate] with the two privileged binds left out. *)
Definition Authenticate_unprivileged (srv : Server)
  (Sprintf : string -> string -> string) (username password : string)
  : M (bool * option (gmap string string) * option error) :=
  let* err := Connect srv in
  match err with
  | Some err => ret (false, None, Some err)
  | None =>
      let* lc := get_client in
      let* l := deref (Conn lc) in
      let* r := Conn_Search srv l (auth_request Sprintf lc username) in
      match r with
      | inr err => ret (false, None, Some err)
      | inl sr =>
          match ldap.Entries sr with
          | [] => ret (false, None, Some NotFound)
          | [e0] =>
              let user := record_onto ∅ (Attributes lc) e0 in
              let* err := Conn_Bind srv l (ldap.DN e0) password in
              match err with
              | Some err => ret (false, Some user, Some err)
              | None => ret (true, Some user, None)
              end
          | _ => ret (false, None, Some AmbiguousResult)
          end
      end
  end.

(** What is left of [Authenticate] once the search has answered. *)
Definition Authenticate_entries (srv : Server) (l : ldap.Conn) (lc : LDAPClient)
  (password : string) (sr : ldap.SearchResult) (s3 : State)
  : Outcome (bool * option (gmap string string) * option error) :=
  match ldap.Entries sr with
  | [] => Returned (false, None, Some NotFound) s3
  | [e] =>
      let user := record_onto ∅ (Attributes lc) e in
      match Conn_Bind srv l (ldap.DN e) password s3 with
      | Returned (Some err) s4 => Returned (false, Some user, Some err) s4
      | Returned None s4 =>
          if privileged lc then
            match Conn_Bind srv l (BindDN lc) (BindPassword lc) s4 with
            | Returned err s5 => Returned (true, Some user, err) s5
            | Panicked s5 => Panicked s5
            end
          else Returned (true, Some user, None) s4
      | Panicked s4 => Panicked s4
      end
  | _ :: _ :: _ => Returned (false, None, Some AmbiguousResult) s3
  end.

(** The state in which a lookup gives up: the search, the one repeat of
    it, the log line and the sleep of the only turn of the loop. *)
Definition gave_up (s : State) (l : ldap.Conn) (req : ldap.SearchRequest) : State :=
  after s [EvSearch l req; EvSearch l req; EvLog req 3; EvSleep (time_Second * 3)].

(** ** Vocabulary of the footprints *)

Definition is_close (e : Event) : bool :=
  match e with EvClose _ => true | _ => false end.

(** The number of Close calls in a history. *)
Definition closes (h : list Event) : nat := length (filter is_close h).

(** The address [Connect] dials (line 33). *)
Definition address (lc : LDAPClient) : string :=
  Host lc +:+ ":" +:+ pretty (Port lc).

(** A run from [s] to [s'] that added [evs]: it touched no field of the
    client but [Conn], closed nothing and dialed at most once, and on a
    client that held a session it dialed nothing and left the client as it
    was. *)
Definition quiet_step (s s' : State) (evs : list Event) : Prop :=
  history s' = (history s ++ evs)%list /\
  with_Conn (client s') None = with_Conn (client s) None /\
  closes evs = 0%nat /\
  (dials evs <= 1)%nat /\
  (forall l, Conn (client s) = Some l -> client s' = client s /\ dials evs = 0%nat).

(** The searches of [evs] all carry the request [req]. *)
Definition searches_only (req : ldap.SearchRequest) (evs : list Event) : Prop :=
  forall l' req', EvSearch l' req' ∈ evs -> req' = req.

(** What a lookup may add to the history: a quiet step with at most two
    searches, all of them [req], no bind, and no sleep or one sleep of
    three seconds. *)
Definition lookup_footprint (req : ldap.SearchRequest) (s s' : State)
  (evs : list Event) : Prop :=
  quiet_step s s' evs /\
  (searches evs <= 2)%nat /\
  searches_only req evs /\
  binds evs = [] /\
  (sleeps evs = [] \/ sleeps evs = [time_Second * 3]).

(** What [Authenticate] may add to the history: a quiet step with at most
    one search, which is [req], at most three binds, and no sleep. *)
Definition Authenticate_footprint (req : ldap.SearchRequest) (s s' : State)
  (evs : list Event) : Prop :=
  quiet_step s s' evs /\
  (searches evs <= 1)%nat /\
  searches_only req evs /\
  (length (binds evs) <= 3)%nat /\
  sleeps evs = [].

(** The state after the one turn of the retry loop: the search, its
    repeat, the log line and the sleep. *)
Definition repeated (s : State) (l : ldap.Conn) (req : ldap.SearchRequest) : State :=
  after s [EvSearch l req; EvSearch l req; EvLog req 3; EvSleep (time_Second * 3)].

(** A server no dial reaches. *)
Definition unreachable : Server :=
  {| on_Dial := fun _ _ _ => Some network_error;
     on_StartTLS := fun _ _ _ => None;
     on_DialTLS := fun _ _ _ _ => Some network_error;
     on_Bind := fun _ _ _ _ => None;
     on_Search := fun _ _ _ => inr network_error |}.

(** [plain_only srv]: [srv], but StartTLS is refused. *)
Definition plain_only (srv : Server) : Server :=
  {| on_Dial := on_Dial srv;
     on_StartTLS := fun _ _ _ => Some (ldap_Error 2 "Protocol Error");
     on_DialTLS := on_DialTLS srv;
     on_Bind := on_Bind srv;
     on_Search := on_Search srv |}.

(** The example client with a wrong password for the reader. *)
Definition misconfigured_client : LDAPClient :=
  {| Conn := None; Host := "ldap.example.com"; Port := 389; UseSSL := false;
     BindDN := "cn=reader,dc=example,dc=com"; BindPassword := "stale";
     GroupFilter := "(memberUid=%s)"; UserFilter := "(uid=%s)";
     Base := "dc=example,dc=com"; Attributes := ["cn"; "mail"];
     ServerName := "ldap.example.com" |}.

(** The anonymous client once connected over TLS. *)
Definition connected_tls : State :=
  state_of (Connect directory (start anonymous_client)).

(** The states of the runs against the servers above. *)
Definition refused : State :=
  state_of (Connect (plain_only directory) (start example_client)).

Definition unreached : State :=
  state_of (Connect unreachable (start example_client)).

Definition connected_stale : State :=
  state_of (Connect directory (start misconfigured_client)).

Definition alice_sought : State := sought directory "(uid=alice)" ["cn"; "mail"].
Definition bob_groups_sought : State := sought directory "(memberUid=bob)" ["cn"].

(** ** Properties *)

Section Properties.

Variable srv : Server.
Variable Sprintf : string -> string -> string.

(** *** The record loops *)

Lemma for_range_pure {A S} (f : S -> A -> S) (body : A -> S -> M S) (xs : list A) :
  (forall x acc s, body x acc s = Returned (f acc x) s) ->
  forall acc s, for_range xs body acc s = Returned (foldl f acc xs) s.
Proof.
  intros Hbody. induction xs as [|x xs IH]; intros acc s; simpl.
  - reflexivity.
  - unfold bind. rewrite Hbody. apply IH.
Qed.

Lemma fill_user_returns (attrs : list string) (entries : list ldap.Entry)
  (i : nat) (e : ldap.Entry) (user : gmap string string) (s : State) :
  entries !! i = Some e ->
  fill_user attrs entries i user s = Returned (record_onto user attrs e) s.
Proof.
  intros He. unfold fill_user, record_onto.
  apply (for_range_pure (fun user attr => <[attr := ldap.GetAttributeValue e attr]> user)).
  intros attr acc s'. unfold bind, index. rewrite He. reflexivity.
Qed.

Lemma record_onto_lookup (attrs : list string) (e : ldap.Entry)
  (user : gmap string string) (k : string) :
  record_onto user attrs e !! k =
    if decide (k ∈ attrs) then Some (ldap.GetAttributeValue e k) else user !! k.
Proof.
  revert user. induction attrs as [|a attrs IH]; intros user; simpl.
  - destruct (decide (k ∈ [])) as [Hin|_]; [inversion Hin | reflexivity].
  - unfold record_onto in *. simpl. rewrite IH.
    destruct (decide (k ∈ attrs)) as [Hin|Hout].
    + rewrite decide_True by (right; exact Hin). reflexivity.
    + destruct (decide (k = a)) as [->|Hne].
      * rewrite decide_True by left. apply lookup_insert_eq.
      * rewrite decide_False
          by (intros Hk; apply elem_of_cons in Hk as [Hk|Hk];
              [exact (Hne Hk) | exact (Hout Hk)]).
        apply lookup_insert_ne. congruence.
Qed.

Lemma record_onto_is_record (attrs : list string) (e : ldap.Entry) :
  is_record (record_onto ∅ attrs e) attrs e.
Proof.
  split; intros attr Hattr; rewrite record_onto_lookup.
  - rewrite decide_True by exact Hattr. reflexivity.
  - rewrite decide_False by exact Hattr. apply lookup_empty.
Qed.

(** An attribute the entry does not carry reads as the empty string. *)
Lemma GetAttributeValue_missing (e : ldap.Entry) (attr : string) :
  (forall a, a ∈ ldap.Attributes e -> ldap.Name a <> attr) ->
  ldap.GetAttributeValue e attr = "".
Proof.
  unfold ldap.GetAttributeValue. intros Hno.
  assert (ldap.GetAttributeValues (ldap.Attributes e) attr = []) as ->; [|reflexivity].
  induction (ldap.Attributes e) as [|a l IH]; simpl; [reflexivity|].
  destruct (String.eqb_spec (ldap.Name a) attr) as [Heq|_].
  - exfalso. apply (Hno a); [left | exact Heq].
  - apply IH. intros b Hb. apply Hno. right. exact Hb.
Qed.

(** *** Histories *)

Lemma dials_app (h evs : list Event) : dials (h ++ evs) = (dials h + dials evs)%nat.
Proof. unfold dials. rewrite filter_app, length_app. reflexivity. Qed.

Lemma searches_app (h evs : list Event) :
  searches (h ++ evs) = (searches h + searches evs)%nat.
Proof. unfold searches. rewrite filter_app, length_app. reflexivity. Qed.

Lemma binds_app (h evs : list Event) : binds (h ++ evs) = (binds h ++ binds evs)%list.
Proof. unfold binds. apply filter_app. Qed.

Lemma sleeps_app (h evs : list Event) : sleeps (h ++ evs) = (sleeps h ++ sleeps evs)%list.
Proof. unfold sleeps. apply omap_app. Qed.

(** *** Connect and Close *)

Ltac run_connect :=
  unfold Connect, ldap_Dial, ldap_DialTLS, Conn_StartTLS, bind, get_client,
    past, emit, set_Conn, ret.

Lemma Connect_connected (s : State) (l : ldap.Conn) :
  Conn (client s) = Some l -> Connect srv s = Returned None s.
Proof. intros Hl. run_connect. rewrite Hl. reflexivity. Qed.

Lemma Connect_returns (s : State) : exists r s1, Connect srv s = Returned r s1.
Proof. run_connect. repeat case_match; simplify_eq; do 2 eexists; reflexivity. Qed.

(** [Connect] touches no field but [Conn], and adds at most one dial and
    no bind, search or sleep to the history. *)
Lemma Connect_inv (s s1 : State) (r : option error) :
  Connect srv s = Returned r s1 ->
  with_Conn (client s1) None = with_Conn (client s) None /\
  exists evs, history s1 = (history s ++ evs)%list /\
    binds evs = [] /\ searches evs = 0%nat /\ sleeps evs = [] /\
    (dials evs <= 1)%nat.
Proof.
  run_connect. intros H.
  repeat case_match; simplify_eq; simpl; (split; [reflexivity|]);
    rewrite <- ?app_assoc; simpl;
    first [ eexists; split; [reflexivity|]
          | exists []; rewrite app_nil_r ];
    repeat split; first [ reflexivity | cbv [dials]; simpl; lia ].
Qed.

Lemma Connect_ok_session (s s1 : State) :
  Connect srv s = Returned None s1 -> exists l, Conn (client s1) = Some l.
Proof.
  run_connect. intros H.
  repeat case_match; simplify_eq; simpl; eauto.
Qed.

Lemma Connect_ok_dials (s s1 : State) :
  Connect srv s = Returned None s1 -> Conn (client s) = None ->
  dials (history s1) = S (dials (history s)).
Proof.
  run_connect. intros H Hnil. rewrite Hnil in H.
  repeat case_match; simplify_eq; simpl;
    rewrite <- ?app_assoc, dials_app; cbv [dials]; simpl; lia.
Qed.

Lemma Connect_config (s s1 : State) (r : option error) :
  Connect srv s = Returned r s1 ->
  Attributes (client s1) = Attributes (client s) /\
  Base (client s1) = Base (client s) /\
  UserFilter (client s1) = UserFilter (client s) /\
  GroupFilter (client s1) = GroupFilter (client s) /\
  BindDN (client s1) = BindDN (client s) /\
  BindPassword (client s1) = BindPassword (client s).
Proof.
  intros H. apply Connect_inv in H as [Hc _].
  repeat split.
  - exact (f_equal Attributes Hc).
  - exact (f_equal Base Hc).
  - exact (f_equal UserFilter Hc).
  - exact (f_equal GroupFilter Hc).
  - exact (f_equal BindDN Hc).
  - exact (f_equal BindPassword Hc).
Qed.

(** *** The retry loop *)

(** From [retry = 3] the loop makes at most one turn: a failed search is
    followed by one more search, one log line and one sleep of three
    seconds, and whatever that search gives is the result. *)
Lemma retry_loop_from_3 (l : ldap.Conn) (req : ldap.SearchRequest)
  (r : ldap.SearchResult + error) (s : State) :
  retry_loop srv l req r 3 s =
    match r with
    | inl sr => Returned (inl sr) s
    | inr _ =>
        Returned (on_Search srv (history s) l req)
          (after s [EvSearch l req; EvLog req 3; EvSleep (time_Second * 3)])
    end.
Proof.
  destruct r as [sr|err]; simp retry_loop; [reflexivity|].
  destruct (decide (3 <= 3)) as [Hle|Hno]; [|lia]. simpl.
  rewrite <- !app_assoc. simpl.
  destruct (on_Search srv (history s) l req) as [sr'|err'];
    simp retry_loop; [reflexivity|].
  destruct (decide (3 + 1 <= 3)) as [Hno|Hgt]; [lia|]. reflexivity.
Qed.

Lemma search_with_retry_eq (l : ldap.Conn) (req : ldap.SearchRequest) (s : State) :
  search_with_retry srv l req s =
    match on_Search srv (history s) l req with
    | inl sr => Returned (inl sr) (after s [EvSearch l req])
    | inr _ =>
        Returned (on_Search srv (history s ++ [EvSearch l req]) l req)
          (after s [EvSearch l req; EvSearch l req; EvLog req 3;
                    EvSleep (time_Second * 3)])
    end.
Proof.
  unfold search_with_retry, Conn_Search, bind, past, emit, ret. simpl.
  rewrite retry_loop_from_3.
  destruct (on_Search srv (history s) l req) as [sr|err]; [reflexivity|].
  unfold after. simpl. rewrite <- app_assoc. reflexivity.
Qed.

(** *** The lookups after a successful connect *)

Lemma user_request_config (lc lc' : LDAPClient) (username : string) :
  with_Conn lc' None = with_Conn lc None ->
  user_request Sprintf lc' username = user_request Sprintf lc username.
Proof.
  intros Hc. unfold user_request.
  rewrite (f_equal Base Hc : Base lc' = Base lc).
  rewrite (f_equal UserFilter Hc : UserFilter lc' = UserFilter lc).
  rewrite (f_equal Attributes Hc : Attributes lc' = Attributes lc).
  reflexivity.
Qed.

Lemma group_request_config (lc lc' : LDAPClient) (username : string) :
  with_Conn lc' None = with_Conn lc None ->
  group_request Sprintf lc' username = group_request Sprintf lc username.
Proof.
  intros Hc. unfold group_request.
  rewrite (f_equal Base Hc : Base lc' = Base lc).
  rewrite (f_equal GroupFilter Hc : GroupFilter lc' = GroupFilter lc).
  reflexivity.
Qed.

Lemma auth_request_config (lc lc' : LDAPClient) (username : string) :
  with_Conn lc' None = with_Conn lc None ->
  auth_request Sprintf lc' username = auth_request Sprintf lc username.
Proof.
  intros Hc. unfold auth_request.
  rewrite (f_equal Base Hc : Base lc' = Base lc).
  rewrite (f_equal UserFilter Hc : UserFilter lc' = UserFilter lc).
  rewrite (f_equal Attributes Hc : Attributes lc' = Attributes lc).
  reflexivity.
Qed.

Lemma foldl_snoc_map {A B} (g : A -> B) (xs : list A) (acc : list B) :
  foldl (fun acc x => acc ++ [g x])%list acc xs = (acc ++ map g xs)%list.
Proof.
  revert acc. induction xs as [|x xs IH]; intros acc; simpl.
  - rewrite app_nil_r. reflexivity.
  - rewrite IH, <- app_assoc. reflexivity.
Qed.

(** [SearchUser] once the session is there and the search has answered. *)
Lemma SearchUser_found (s s1 s2 : State) (l : ldap.Conn) (username : string)
  (sr : ldap.SearchResult) :
  Connect srv s = Returned None s1 ->
  Conn (client s1) = Some l ->
  search_with_retry srv l (user_request Sprintf (client s) username) s1 =
    Returned (inl sr) s2 ->
  SearchUser srv Sprintf username s =
    if (length (ldap.Entries sr) <? 1)%nat then Returned (None, Some NotFound) s2
    else if (1 <? length (ldap.Entries sr))%nat then
      Returned (None, Some AmbiguousResult) s2
    else
      match fill_user (Attributes (client s)) (ldap.Entries sr) 0 ∅ s2 with
      | Returned user s3 => Returned (Some user, None) s3
      | Panicked s3 => Panicked s3
      end.
Proof.
  intros Hconnect Hl Hsearch.
  destruct (Connect_inv _ _ _ Hconnect) as [Hc _].
  unfold SearchUser, bind. rewrite Hconnect. unfold get_client, deref.
  rewrite Hl. unfold ret at 1.
  change (ldap.NewSearchRequest _ _ _ _ _ _ _ _ _)
    with (user_request Sprintf (client s1) username).
  rewrite (user_request_config _ _ _ Hc), Hsearch.
  rewrite (f_equal Attributes Hc : Attributes (client s1) = Attributes (client s)).
  repeat case_match; reflexivity.
Qed.

(** [FindUsers] once the session is there and the search has answered. *)
Lemma FindUsers_found (s s1 s2 : State) (l : ldap.Conn) (search : string)
  (sr : ldap.SearchResult) :
  Connect srv s = Returned None s1 ->
  Conn (client s1) = Some l ->
  search_with_retry srv l (user_request Sprintf (client s) search) s1 =
    Returned (inl sr) s2 ->
  FindUsers srv Sprintf search s =
    if (length (ldap.Entries sr) <? 1)%nat then Returned (None, Some NotFound) s2
    else
      Returned
        (Some (map (record_onto ∅ (Attributes (client s))) (ldap.Entries sr)), None)
        s2.
Proof.
  intros Hconnect Hl Hsearch.
  destruct (Connect_inv _ _ _ Hconnect) as [Hc _].
  unfold FindUsers, bind. rewrite Hconnect. unfold get_client, deref.
  rewrite Hl. unfold ret at 1.
  change (ldap.NewSearchRequest _ _ _ _ _ _ _ _ _)
    with (user_request Sprintf (client s1) search).
  rewrite (user_request_config _ _ _ Hc), Hsearch.
  rewrite (f_equal Attributes Hc : Attributes (client s1) = Attributes (client s)).
  destruct (length (ldap.Entries sr) <? 1)%nat; [reflexivity|].
  rewrite (for_range_pure
             (fun users e => users ++ [record_onto ∅ (Attributes (client s)) e])%list).
  - rewrite foldl_snoc_map. reflexivity.
  - intros e users s'.
    rewrite (for_range_pure
               (fun user attr => <[attr := ldap.GetAttributeValue e attr]> user));
      reflexivity.
Qed.

(** [GetGroupsOfUser] once the session is there and the search has answered. *)
Lemma GetGroupsOfUser_found (s s1 s2 : State) (l : ldap.Conn) (username : string)
  (sr : ldap.SearchResult) :
  Connect srv s = Returned None s1 ->
  Conn (client s1) = Some l ->
  search_with_retry srv l (group_request Sprintf (client s) username) s1 =
    Returned (inl sr) s2 ->
  GetGroupsOfUser srv Sprintf username s =
    Returned
      (Some (map (fun e => ldap.GetAttributeValue e "cn") (ldap.Entries sr)), None)
      s2.
Proof.
  intros Hconnect Hl Hsearch.
  destruct (Connect_inv _ _ _ Hconnect) as [Hc _].
  unfold GetGroupsOfUser, bind. rewrite Hconnect. unfold get_client, deref.
  rewrite Hl. unfold ret at 1.
  change (ldap.NewSearchRequest _ _ _ _ _ _ _ _ _)
    with (group_request Sprintf (client s1) username).
  rewrite (group_request_config _ _ _ Hc), Hsearch.
  rewrite (for_range_pure
             (fun groups e => groups ++ [ldap.GetAttributeValue e "cn"])%list);
    [|reflexivity].
  rewrite foldl_snoc_map. reflexivity.
Qed.

(** *** The session *)

(** C9: calling Connect twice in succession makes exactly one dial: when
    the first call succeeds, the second returns no error and leaves the
    client and the history as they are, and the first call, made on a
    client without a session, added one dial.  Close on a client without
    a session returns and changes nothing. *)
Theorem Connect_twice_one_dial_Close_safe (s s1 : State) :
  (Connect srv s = Returned None s1 ->
     Connect srv s1 = Returned None s1 /\
     (Conn (client s) = None -> dials (history s1) = S (dials (history s)))) /\
  (Conn (client s) = None -> Close s = Returned tt s).
Proof.
  split.
  - intros Hconnect. split.
    + destruct (Connect_ok_session _ _ Hconnect) as [l Hl].
      exact (Connect_connected _ _ Hl).
    + intros Hnil. exact (Connect_ok_dials _ _ Hconnect Hnil).
  - intros Hnil. unfold Close, bind, get_client. rewrite Hnil. reflexivity.
Qed.

(** C2, as the code has it: Close calls Close on the connection and keeps
    the handle in the client, so the client is not back in the state
    without a session: a Connect that follows returns at once, without a
    dial, and the history ends with the Close. *)
Theorem Close_keeps_the_session (s : State) (l : ldap.Conn) :
  Conn (client s) = Some l ->
  Close s = Returned tt (after s [EvClose l]) /\
  Conn (client (after s [EvClose l])) = Some l /\
  Connect srv (after s [EvClose l]) = Returned None (after s [EvClose l]) /\
  dials (history (after s [EvClose l])) = dials (history s).
Proof.
  intros Hl. repeat split.
  - unfold Close, bind, get_client. rewrite Hl. reflexivity.
  - exact Hl.
  - apply (Connect_connected _ l). exact Hl.
  - simpl. rewrite dials_app. cbv [dials]. simpl. lia.
Qed.

(** *** The lookups *)

(** C3: when the search for the user answers with exactly one entry,
    SearchUser returns no error and a record whose keys are the configured
    attribute names, each mapped to the entry's single value for it, and
    an attribute the entry does not carry is mapped to the empty string. *)
Theorem SearchUser_one_entry (s s1 s2 : State) (l : ldap.Conn) (username : string)
  (sr : ldap.SearchResult) (e : ldap.Entry) :
  Connect srv s = Returned None s1 ->
  Conn (client s1) = Some l ->
  search_with_retry srv l (user_request Sprintf (client s) username) s1 =
    Returned (inl sr) s2 ->
  ldap.Entries sr = [e] ->
  exists user,
    SearchUser srv Sprintf username s = Returned (Some user, None) s2 /\
    is_record user (Attributes (client s)) e /\
    (forall attr, attr ∈ Attributes (client s) ->
       (forall a, a ∈ ldap.Attributes e -> ldap.Name a <> attr) ->
       user !! attr = Some "").
Proof.
  intros Hconnect Hl Hsearch Hone.
  exists (record_onto ∅ (Attributes (client s)) e).
  split; [|split].
  - rewrite (SearchUser_found _ _ _ _ _ _ Hconnect Hl Hsearch), Hone. simpl.
    rewrite (fill_user_returns _ _ _ e) by reflexivity. reflexivity.
  - apply record_onto_is_record.
  - intros attr Hattr Hmissing.
    destruct (record_onto_is_record (Attributes (client s)) e) as [Hin _].
    rewrite (Hin attr Hattr), (GetAttributeValue_missing e attr Hmissing).
    reflexivity.
Qed.

(** C4: when the search answers with no entry, SearchUser and FindUsers
    fail with the error "User does not exist", and GetGroupsOfUser returns
    the empty list and no error. *)
Theorem no_entry_NotFound_but_no_groups (s s1 s2 : State) (l : ldap.Conn)
  (username : string) (sr : ldap.SearchResult) :
  Connect srv s = Returned None s1 ->
  Conn (client s1) = Some l ->
  ldap.Entries sr = [] ->
  (search_with_retry srv l (user_request Sprintf (client s) username) s1 =
     Returned (inl sr) s2 ->
   SearchUser srv Sprintf username s = Returned (None, Some NotFound) s2 /\
   FindUsers srv Sprintf username s = Returned (None, Some NotFound) s2) /\
  (search_with_retry srv l (group_request Sprintf (client s) username) s1 =
     Returned (inl sr) s2 ->
   GetGroupsOfUser srv Sprintf username s = Returned (Some [], None) s2).
Proof.
  intros Hconnect Hl Hnone. split; intros Hsearch.
  - rewrite (SearchUser_found _ _ _ _ _ _ Hconnect Hl Hsearch).
    rewrite (FindUsers_found _ _ _ _ _ _ Hconnect Hl Hsearch).
    rewrite Hnone. split; reflexivity.
  - rewrite (GetGroupsOfUser_found _ _ _ _ _ _ Hconnect Hl Hsearch), Hnone.
    reflexivity.
Qed.

(** C5: when the search answers with more than one entry, SearchUser
    fails with the error "Too many entries returned", and FindUsers
    returns no error and one record for each entry, in the order of the
    answer, each over the configured attribute names. *)
Theorem many_entries_Ambiguous_but_all_found (s s1 s2 : State) (l : ldap.Conn)
  (username : string) (sr : ldap.SearchResult) :
  Connect srv s = Returned None s1 ->
  Conn (client s1) = Some l ->
  search_with_retry srv l (user_request Sprintf (client s) username) s1 =
    Returned (inl sr) s2 ->
  (1 < length (ldap.Entries sr))%nat ->
  SearchUser srv Sprintf username s = Returned (None, Some AmbiguousResult) s2 /\
  exists users,
    FindUsers srv Sprintf username s = Returned (Some users, None) s2 /\
    length users = length (ldap.Entries sr) /\
    forall i e, ldap.Entries sr !! i = Some e ->
      exists user, users !! i = Some user /\ is_record user (Attributes (client s)) e.
Proof.
  intros Hconnect Hl Hsearch Hmany.
  assert ((length (ldap.Entries sr) <? 1)%nat = false) as Hlt
    by (apply Nat.ltb_ge; lia).
  assert ((1 <? length (ldap.Entries sr))%nat = true) as Hgt
    by (apply Nat.ltb_lt; lia).
  split.
  - rewrite (SearchUser_found _ _ _ _ _ _ Hconnect Hl Hsearch), Hlt, Hgt.
    reflexivity.
  - exists (map (record_onto ∅ (Attributes (client s))) (ldap.Entries sr)).
    split; [|split].
    + rewrite (FindUsers_found _ _ _ _ _ _ Hconnect Hl Hsearch), Hlt. reflexivity.
    + apply length_map.
    + intros i e Hi. exists (record_onto ∅ (Attributes (client s)) e). split.
      * rewrite list_lookup_fmap, Hi. reflexivity.
      * apply record_onto_is_record.
Qed.

(** *** Authenticate *)

Lemma privileged_config (lc lc' : LDAPClient) :
  with_Conn lc' None = with_Conn lc None -> privileged lc' = privileged lc.
Proof.
  intros Hc. unfold privileged.
  rewrite (f_equal BindDN Hc : BindDN lc' = BindDN lc).
  rewrite (f_equal BindPassword Hc : BindPassword lc' = BindPassword lc).
  reflexivity.
Qed.

(** [Authenticate] once the session is there: the reader's bind when the
    client holds credentials, the search, then the entries. *)
Lemma Authenticate_connected (s s1 : State) (l : ldap.Conn)
  (username password : string) :
  Connect srv s = Returned None s1 ->
  Conn (client s1) = Some l ->
  Authenticate srv Sprintf username password s =
    match first_bind srv l (client s) s1 with
    | Returned (Some err) s2 => Returned (false, None, Some err) s2
    | Returned None s2 =>
        match Conn_Search srv l (auth_request Sprintf (client s) username) s2 with
        | Returned (inr err) s3 => Returned (false, None, Some err) s3
        | Returned (inl sr) s3 => Authenticate_entries srv l (client s) password sr s3
        | Panicked s3 => Panicked s3
        end
    | Panicked s2 => Panicked s2
    end.
Proof.
  intros Hconnect Hl.
  destruct (Connect_inv _ _ _ Hconnect) as [Hc _].
  unfold Authenticate, bind. rewrite Hconnect. unfold get_client, deref.
  rewrite Hl. unfold ret at 1.
  change (ldap.NewSearchRequest _ _ _ _ _ _ _ _ _)
    with (auth_request Sprintf (client s1) username).
  change (negb (BindDN (client s1) =? "") && negb (BindPassword (client s1) =? ""))
    with (privileged (client s1)).
  rewrite (auth_request_config _ _ _ Hc), (privileged_config _ _ Hc).
  rewrite (f_equal BindDN Hc : BindDN (client s1) = BindDN (client s)).
  rewrite (f_equal BindPassword Hc : BindPassword (client s1) = BindPassword (client s)).
  rewrite (f_equal Attributes Hc : Attributes (client s1) = Attributes (client s)).
  change (if privileged (client s)
          then Conn_Bind srv l (BindDN (client s)) (BindPassword (client s))
          else ret None) with (first_bind srv l (client s)).
  destruct (first_bind srv l (client s) s1) as [[err|] s2|s2]; try reflexivity.
  destruct (Conn_Search srv l (auth_request Sprintf (client s) username) s2)
    as [[sr|err] s3|s3]; try reflexivity.
  unfold Authenticate_entries.
  destruct (ldap.Entries sr) as [|e [|e' rest]]; [reflexivity| |reflexivity].
  cbn -[Conn_Bind fill_user record_onto privileged].
  rewrite (fill_user_returns _ _ _ e) by reflexivity.
  destruct (Conn_Bind srv l (ldap.DN e) password s3) as [[err|] s4|s4];
    try reflexivity.
  destruct (privileged (client s)); [|reflexivity].
  destruct (Conn_Bind srv l (BindDN (client s)) (BindPassword (client s)) s4)
    as [[err|] s5|s5]; reflexivity.
Qed.

(** The same with the outcomes of the bind and of the search at hand. *)
Lemma Authenticate_searched (s s1 s2 s3 : State) (l : ldap.Conn)
  (username password : string) (sr : ldap.SearchResult) :
  Connect srv s = Returned None s1 ->
  Conn (client s1) = Some l ->
  first_bind srv l (client s) s1 = Returned None s2 ->
  Conn_Search srv l (auth_request Sprintf (client s) username) s2 =
    Returned (inl sr) s3 ->
  Authenticate srv Sprintf username password s =
    Authenticate_entries srv l (client s) password sr s3.
Proof.
  intros Hconnect Hl Hfirst Hsearch.
  rewrite (Authenticate_connected _ _ _ _ _ Hconnect Hl), Hfirst, Hsearch.
  reflexivity.
Qed.

Lemma privileged_true (lc : LDAPClient) :
  BindDN lc <> "" -> BindPassword lc <> "" -> privileged lc = true.
Proof.
  intros Hdn Hpw. unfold privileged.
  destruct (String.eqb_spec (BindDN lc) ""); [contradiction|].
  destruct (String.eqb_spec (BindPassword lc) ""); [contradiction|].
  reflexivity.
Qed.

Lemma privileged_false (lc : LDAPClient) :
  BindDN lc = "" \/ BindPassword lc = "" -> privileged lc = false.
Proof.
  intros [Hdn|Hpw]; unfold privileged.
  - rewrite Hdn. reflexivity.
  - rewrite Hpw. apply andb_false_r.
Qed.

Lemma Conn_Bind_eq (l : ldap.Conn) (username password : string) (s : State) :
  Conn_Bind srv l username password s =
    Returned (on_Bind srv (history s) l username password)
      (after s [EvBind l username password]).
Proof. reflexivity. Qed.

Lemma Conn_Search_eq (l : ldap.Conn) (req : ldap.SearchRequest) (s : State) :
  Conn_Search srv l req s =
    Returned (on_Search srv (history s) l req) (after s [EvSearch l req]).
Proof. reflexivity. Qed.

(** C6: when Authenticate has resolved exactly one user and the bind as
    that user with the given password fails, it returns false, the record
    of the user and the error of the bind; when no user is found it returns
    false, no record and the error "User does not exist": the record tells
    a wrong password from an unknown user. *)
Theorem Authenticate_wrong_password (s s1 s2 s3 : State) (l : ldap.Conn)
  (username password : string) (sr : ldap.SearchResult) :
  Connect srv s = Returned None s1 ->
  Conn (client s1) = Some l ->
  first_bind srv l (client s) s1 = Returned None s2 ->
  Conn_Search srv l (auth_request Sprintf (client s) username) s2 =
    Returned (inl sr) s3 ->
  (forall e err s4,
     ldap.Entries sr = [e] ->
     Conn_Bind srv l (ldap.DN e) password s3 = Returned (Some err) s4 ->
     exists user,
       Authenticate srv Sprintf username password s =
         Returned (false, Some user, Some err) s4 /\
       is_record user (Attributes (client s)) e) /\
  (ldap.Entries sr = [] ->
   Authenticate srv Sprintf username password s =
     Returned (false, None, Some NotFound) s3).
Proof.
  intros Hconnect Hl Hfirst Hsearch.
  rewrite (Authenticate_searched _ _ _ _ _ _ _ _ Hconnect Hl Hfirst Hsearch).
  unfold Authenticate_entries. split.
  - intros e err s4 Hone Hbind. rewrite Hone, Hbind.
    eexists. split; [reflexivity|]. apply record_onto_is_record.
  - intros Hnone. rewrite Hnone. reflexivity.
Qed.

(** C7: when the client holds the reader's credentials, the bind as the
    user succeeds and the bind back to the reader fails, Authenticate
    returns true, the record of the user and the error of that last
    bind. *)
Theorem Authenticate_rebind_fails (s s1 s2 s3 s4 s5 : State) (l : ldap.Conn)
  (username password : string) (sr : ldap.SearchResult) (e : ldap.Entry)
  (err : error) :
  Connect srv s = Returned None s1 ->
  Conn (client s1) = Some l ->
  BindDN (client s) <> "" ->
  BindPassword (client s) <> "" ->
  Conn_Bind srv l (BindDN (client s)) (BindPassword (client s)) s1 =
    Returned None s2 ->
  Conn_Search srv l (auth_request Sprintf (client s) username) s2 =
    Returned (inl sr) s3 ->
  ldap.Entries sr = [e] ->
  Conn_Bind srv l (ldap.DN e) password s3 = Returned None s4 ->
  Conn_Bind srv l (BindDN (client s)) (BindPassword (client s)) s4 =
    Returned (Some err) s5 ->
  exists user,
    Authenticate srv Sprintf username password s =
      Returned (true, Some user, Some err) s5 /\
    is_record user (Attributes (client s)) e.
Proof.
  intros Hconnect Hl Hdn Hpw Hfirst Hsearch Hone Hbind Hrebind.
  pose proof (privileged_true _ Hdn Hpw) as Hpriv.
  assert (first_bind srv l (client s) s1 = Returned None s2) as Hfirst'
    by (unfold first_bind; rewrite Hpriv; exact Hfirst).
  rewrite (Authenticate_searched _ _ _ _ _ _ _ _ Hconnect Hl Hfirst' Hsearch).
  unfold Authenticate_entries. rewrite Hone, Hbind, Hpriv, Hrebind.
  eexists. split; [reflexivity|]. apply record_onto_is_record.
Qed.

(** C8, as the code has it: when every step of Authenticate succeeds, the
    record it returns with true and no error holds the configured
    attribute names and nothing else, so it holds "dn" only when "dn" is
    configured; the search asks for the configured attributes and "dn",
    and the distinguished name of the entry is what the user's bind is
    made with. *)
Theorem Authenticate_record_is_configured_attributes (s s1 s2 s3 s4 s5 : State)
  (l : ldap.Conn) (username password : string) (sr : ldap.SearchResult)
  (e : ldap.Entry) :
  Connect srv s = Returned None s1 ->
  Conn (client s1) = Some l ->
  first_bind srv l (client s) s1 = Returned None s2 ->
  Conn_Search srv l (auth_request Sprintf (client s) username) s2 =
    Returned (inl sr) s3 ->
  ldap.Entries sr = [e] ->
  Conn_Bind srv l (ldap.DN e) password s3 = Returned None s4 ->
  first_bind srv l (client s) s4 = Returned None s5 ->
  exists user,
    Authenticate srv Sprintf username password s =
      Returned (true, Some user, None) s5 /\
    is_record user (Attributes (client s)) e /\
    ("dn" ∉ Attributes (client s) -> user !! "dn" = None) /\
    ldap.ReqAttributes (auth_request Sprintf (client s) username) =
      (Attributes (client s) ++ ["dn"])%list /\
    EvBind l (ldap.DN e) password ∈ history s5.
Proof.
  intros Hconnect Hl Hfirst Hsearch Hone Hbind Hrebind.
  exists (record_onto ∅ (Attributes (client s)) e).
  pose proof (record_onto_is_record (Attributes (client s)) e) as Hrec.
  split; [|split; [exact Hrec|split; [apply Hrec|split; [reflexivity|]]]].
  - rewrite (Authenticate_searched _ _ _ _ _ _ _ _ Hconnect Hl Hfirst Hsearch).
    unfold Authenticate_entries. rewrite Hone, Hbind.
    unfold first_bind in Hrebind.
    destruct (privileged (client s)).
    + rewrite Hrebind. reflexivity.
    + unfold ret in Hrebind. congruence.
  - rewrite Conn_Bind_eq in Hbind.
    assert (history s4 = (history s3 ++ [EvBind l (ldap.DN e) password])%list)
      as Hs4 by (inversion Hbind; reflexivity).
    unfold first_bind in Hrebind. destruct (privileged (client s)).
    + rewrite Conn_Bind_eq in Hrebind. inversion Hrebind. simpl. rewrite Hs4.
      set_solver.
    + unfold ret in Hrebind. inversion Hrebind. subst s5. rewrite Hs4.
      set_solver.
Qed.

Lemma no_bind_in (evs : list Event) :
  binds evs = [] -> forall l dn pw, EvBind l dn pw ∉ evs.
Proof.
  intros Hb l dn pw Hin.
  assert (EvBind l dn pw ∈ binds evs) as Hin'
    by (apply list_elem_of_filter; split; [exact I|exact Hin]).
  rewrite Hb in Hin'. inversion Hin'.
Qed.

Lemma Authenticate_unprivileged_eq (s : State) (username password : string) :
  privileged (client s) = false ->
  Authenticate srv Sprintf username password s =
    Authenticate_unprivileged srv Sprintf username password s.
Proof.
  intros Hpriv.
  destruct (Connect srv s) as [[err|] s1|s1] eqn:Hconnect.
  - unfold Authenticate, Authenticate_unprivileged, bind. rewrite Hconnect.
    reflexivity.
  - destruct (Connect_ok_session _ _ Hconnect) as [l Hl].
    destruct (Connect_inv _ _ _ Hconnect) as [Hc _].
    rewrite (Authenticate_connected _ _ _ _ _ Hconnect Hl).
    unfold Authenticate_unprivileged, bind. rewrite Hconnect.
    unfold get_client, deref. rewrite Hl. unfold ret at 1.
    rewrite (auth_request_config _ _ _ Hc).
    rewrite (f_equal Attributes Hc : Attributes (client s1) = Attributes (client s)).
    unfold first_bind. rewrite Hpriv. unfold ret at 1.
    destruct (Conn_Search srv l (auth_request Sprintf (client s) username) s1)
      as [[sr|err] s3|s3]; try reflexivity.
    unfold Authenticate_entries. rewrite Hpriv.
    destruct (ldap.Entries sr) as [|e [|e' rest]]; try reflexivity.
    destruct (Conn_Bind srv l (ldap.DN e) password s3) as [[err|] s4|s4];
      reflexivity.
  - unfold Authenticate, Authenticate_unprivileged, bind. rewrite Hconnect.
    reflexivity.
Qed.

(** C10: the bind as the reader before the search and the bind back to
    the reader after the user's bind are made only when both BindDN and
    BindPassword are non-empty.  If either is empty, Authenticate is the
    procedure without the two binds: it makes at most one bind, with the
    user's password.  If both are set, the first call on the session is
    the reader's bind, and so is the last call of a run that returns
    true. *)
Theorem privileged_binds_need_both_credentials (s : State)
  (username password : string) :
  (BindDN (client s) = "" \/ BindPassword (client s) = "" ->
   Authenticate srv Sprintf username password s =
     Authenticate_unprivileged srv Sprintf username password s /\
   forall r s',
     Authenticate srv Sprintf username password s = Returned r s' ->
     exists evs,
       history s' = (history s ++ evs)%list /\
       (length (binds evs) <= 1)%nat /\
       forall l' dn pw, EvBind l' dn pw ∈ evs -> pw = password) /\
  (BindDN (client s) <> "" -> BindPassword (client s) <> "" ->
   forall s1 l,
     Connect srv s = Returned None s1 ->
     Conn (client s1) = Some l ->
     exists r s' evs,
       Authenticate srv Sprintf username password s = Returned r s' /\
       history s' =
         (history s1 ++
          EvBind l (BindDN (client s)) (BindPassword (client s)) :: evs)%list /\
       (fst (fst r) = true ->
        last (history s') =
          Some (EvBind l (BindDN (client s)) (BindPassword (client s))))).
Proof.
  split.
  - intros Hempty. pose proof (privileged_false _ Hempty) as Hpriv.
    rewrite (Authenticate_unprivileged_eq _ _ _ Hpriv).
    split; [reflexivity|].
    intros r s'. unfold Authenticate_unprivileged, bind.
    destruct (Connect srv s) as [[err|] s1|s1] eqn:Hconnect; [| |discriminate].
    + intros Hret. inversion Hret; subst.
      destruct (Connect_inv _ _ _ Hconnect) as [_ (evs & Hh & Hb & _)].
      exists evs. split; [exact Hh|]. split; [rewrite Hb; simpl; lia|].
      intros l' dn pw Hin. exfalso. exact (no_bind_in _ Hb _ _ _ Hin).
    + destruct (Connect_ok_session _ _ Hconnect) as [l Hl].
      destruct (Connect_inv _ _ _ Hconnect) as [_ (evs & Hh & Hb & _)].
      unfold get_client, deref. rewrite Hl.
      unfold Conn_Search, Conn_Bind, bind, past, emit, ret. simpl.
      intros Hret.
      repeat case_match; simplify_eq; simpl; rewrite Hh, <- ?app_assoc;
        (eexists; split; [reflexivity|]);
        (split;
         [ rewrite binds_app, Hb; cbv [binds]; simpl; lia
         | intros l' dn pw Hin; apply elem_of_app in Hin as [Hin|Hin];
           [ exfalso; exact (no_bind_in _ Hb _ _ _ Hin)
           | repeat (apply elem_of_cons in Hin as [Hin|Hin]; [congruence|]);
             inversion Hin ] ]).
  - intros Hdn Hpw s1 l Hconnect Hl.
    pose proof (privileged_true _ Hdn Hpw) as Hpriv.
    rewrite (Authenticate_connected _ _ _ _ _ Hconnect Hl).
    unfold first_bind, Authenticate_entries. rewrite Hpriv.
    unfold Conn_Search, Conn_Bind, bind, past, emit, ret. simpl.
    repeat case_match; do 3 eexists; (split; [reflexivity|]); simpl;
      (split;
       [ rewrite <- ?app_assoc; reflexivity
       | intros Htrue; first [discriminate Htrue | apply last_snoc] ]).
Qed.

(** *** The retry loop in the three lookups *)

Lemma SearchUser_search_failed (s s1 s2 : State) (l : ldap.Conn)
  (username : string) (err : error) :
  Connect srv s = Returned None s1 ->
  Conn (client s1) = Some l ->
  search_with_retry srv l (user_request Sprintf (client s) username) s1 =
    Returned (inr err) s2 ->
  SearchUser srv Sprintf username s = Returned (None, Some err) s2 /\
  FindUsers srv Sprintf username s = Returned (None, Some err) s2.
Proof.
  intros Hconnect Hl Hsearch.
  destruct (Connect_inv _ _ _ Hconnect) as [Hc _].
  split.
  - unfold SearchUser, bind. rewrite Hconnect. unfold get_client, deref.
    rewrite Hl. unfold ret at 1.
    change (ldap.NewSearchRequest _ _ _ _ _ _ _ _ _)
      with (user_request Sprintf (client s1) username).
    rewrite (user_request_config _ _ _ Hc), Hsearch. reflexivity.
  - unfold FindUsers, bind. rewrite Hconnect. unfold get_client, deref.
    rewrite Hl. unfold ret at 1.
    change (ldap.NewSearchRequest _ _ _ _ _ _ _ _ _)
      with (user_request Sprintf (client s1) username).
    rewrite (user_request_config _ _ _ Hc), Hsearch. reflexivity.
Qed.

Lemma GetGroupsOfUser_search_failed (s s1 s2 : State) (l : ldap.Conn)
  (username : string) (err : error) :
  Connect srv s = Returned None s1 ->
  Conn (client s1) = Some l ->
  search_with_retry srv l (group_request Sprintf (client s) username) s1 =
    Returned (inr err) s2 ->
  GetGroupsOfUser srv Sprintf username s = Returned (None, Some err) s2.
Proof.
  intros Hconnect Hl Hsearch.
  destruct (Connect_inv _ _ _ Hconnect) as [Hc _].
  unfold GetGroupsOfUser, bind. rewrite Hconnect. unfold get_client, deref.
  rewrite Hl. unfold ret at 1.
  change (ldap.NewSearchRequest _ _ _ _ _ _ _ _ _)
    with (group_request Sprintf (client s1) username).
  rewrite (group_request_config _ _ _ Hc), Hsearch. reflexivity.
Qed.

Lemma search_with_retry_fails_twice (l : ldap.Conn) (req : ldap.SearchRequest)
  (s : State) (err1 err2 : error) :
  on_Search srv (history s) l req = inr err1 ->
  on_Search srv (history s ++ [EvSearch l req]) l req = inr err2 ->
  search_with_retry srv l req s = Returned (inr err2) (gave_up s l req).
Proof.
  intros H1 H2. rewrite search_with_retry_eq, H1, H2. reflexivity.
Qed.

(** C1, as the code has it: the loop starts with retry = 3 and runs while
    retry <= 3, so a failed search is repeated once.  When the first two
    searches fail, each of SearchUser, FindUsers and GetGroupsOfUser
    returns the second error after two searches with the same request, one
    log line and one sleep of three seconds; no third search is made,
    whatever it would answer. *)
Theorem second_failure_is_returned (s s1 : State) (l : ldap.Conn)
  (username : string) (err1 err2 : error) :
  Connect srv s = Returned None s1 ->
  Conn (client s1) = Some l ->
  (on_Search srv (history s1) l (user_request Sprintf (client s) username) =
     inr err1 ->
   on_Search srv
     (history s1 ++ [EvSearch l (user_request Sprintf (client s) username)])
     l (user_request Sprintf (client s) username) = inr err2 ->
   SearchUser srv Sprintf username s =
     Returned (None, Some err2)
       (gave_up s1 l (user_request Sprintf (client s) username)) /\
   FindUsers srv Sprintf username s =
     Returned (None, Some err2)
       (gave_up s1 l (user_request Sprintf (client s) username))) /\
  (on_Search srv (history s1) l (group_request Sprintf (client s) username) =
     inr err1 ->
   on_Search srv
     (history s1 ++ [EvSearch l (group_request Sprintf (client s) username)])
     l (group_request Sprintf (client s) username) = inr err2 ->
   GetGroupsOfUser srv Sprintf username s =
     Returned (None, Some err2)
       (gave_up s1 l (group_request Sprintf (client s) username))).
Proof.
  intros Hconnect Hl. split; intros H1 H2.
  - apply (SearchUser_search_failed _ _ _ _ _ _ Hconnect Hl).
    exact (search_with_retry_fails_twice _ _ _ _ _ H1 H2).
  - apply (GetGroupsOfUser_search_failed _ _ _ _ _ _ Hconnect Hl).
    exact (search_with_retry_fails_twice _ _ _ _ _ H1 H2).
Qed.

End Properties.

(** ** The properties on the example directory *)

(** The scenarios of the specification. *)
Example SearchUser_alice :
  exists s,
    SearchUser directory Sprintf_s "alice" (start example_client) =
      Returned (Some {["cn" := "Alice A"; "mail" := "alice@example.com"]}, None) s.
Proof. eexists. vm_compute. reflexivity. Qed.

Example GetGroupsOfUser_bob :
  exists s,
    GetGroupsOfUser directory Sprintf_s "bob" (start example_client) =
      Returned (Some ["admins"; "devs"], None) s.
Proof. eexists. vm_compute. reflexivity. Qed.

(** One failure is survived: the repeat succeeds, and the sleep of three
    seconds comes after it. *)
Example SearchUser_after_one_failure :
  exists user s,
    SearchUser (flaky 1 directory) Sprintf_s "alice" (start example_client) =
      Returned (Some user, None) s /\
    searches (history s) = 2%nat /\
    sleeps (history s) = [3 * time_Second] /\
    last (history s) = Some (EvSleep (3 * time_Second)).
Proof. do 2 eexists. repeat split; vm_compute; reflexivity. Qed.

(** [Sprintf_s] on the filters of the examples. *)
Example Sprintf_s_uid : Sprintf_s "(uid=%s)" "alice" = "(uid=alice)".
Proof. reflexivity. Qed.

Lemma Connect_twice_one_dial_Close_safe_witness :
  (Connect directory connected = Returned None connected /\
   dials (history connected) = 1%nat) /\
  Close (start example_client) = Returned tt (start example_client).
Proof.
  destruct (Connect_twice_one_dial_Close_safe directory (start example_client) connected)
    as [Htwice Hclose].
  destruct Htwice as [Hsecond Hdials]; [vm_compute; reflexivity|].
  split; [split|].
  - exact Hsecond.
  - exact (Hdials eq_refl).
  - exact (Hclose eq_refl).
Defined.

(** C2, as the claim has it, fails: after Connect and Close on the example
    client the handle is still there, and the next Connect does not dial:
    the whole run holds one dial. *)
Lemma Close_then_Connect_no_new_session :
  exists s2 s3,
    Connect directory (start example_client) = Returned None connected /\
    Close connected = Returned tt s2 /\
    Connect directory s2 = Returned None s3 /\
    Conn (client s2) <> None /\
    dials (history s3) <> S (dials (history s2)) /\
    dials (history s3) = 1%nat.
Proof.
  exists (after connected [EvClose 0%nat]), (after connected [EvClose 0%nat]).
  repeat split; try (vm_compute; reflexivity); vm_compute; discriminate.
Qed.

Lemma Close_keeps_the_session_witness :
  Close connected = Returned tt (after connected [EvClose 0%nat]) /\
  Conn (client (after connected [EvClose 0%nat])) = Some 0%nat /\
  Connect directory (after connected [EvClose 0%nat]) =
    Returned None (after connected [EvClose 0%nat]) /\
  dials (history (after connected [EvClose 0%nat])) = dials (history connected).
Proof.
  apply (Close_keeps_the_session directory connected 0%nat). vm_compute. reflexivity.
Defined.

Lemma SearchUser_one_entry_witness :
  exists user,
    SearchUser (flaky 1 directory) Sprintf_s "alice" (start example_client) =
      Returned (Some user, None) alice_found /\
    is_record user ["cn"; "mail"] alice /\
    (forall attr, attr ∈ ["cn"; "mail"] ->
       (forall a, a ∈ ldap.Attributes alice -> ldap.Name a <> attr) ->
       user !! attr = Some "").
Proof.
  apply (SearchUser_one_entry (flaky 1 directory) Sprintf_s (start example_client)
           connected alice_found 0%nat "alice" (ldap.mkSearchResult [alice]) alice);
    vm_compute; reflexivity.
Defined.

Lemma no_entry_NotFound_but_no_groups_witness :
  (SearchUser directory Sprintf_s "carol" (start example_client) =
     Returned (None, Some NotFound) carol_sought /\
   FindUsers directory Sprintf_s "carol" (start example_client) =
     Returned (None, Some NotFound) carol_sought) /\
  GetGroupsOfUser directory Sprintf_s "carol" (start example_client) =
    Returned (Some [], None) carol_groups_sought.
Proof.
  split.
  - apply (no_entry_NotFound_but_no_groups directory Sprintf_s (start example_client)
             connected carol_sought 0%nat "carol" (ldap.mkSearchResult []));
      vm_compute; reflexivity.
  - apply (no_entry_NotFound_but_no_groups directory Sprintf_s (start example_client)
             connected carol_groups_sought 0%nat "carol" (ldap.mkSearchResult []));
      vm_compute; reflexivity.
Defined.

Lemma many_entries_Ambiguous_but_all_found_witness :
  SearchUser directory Sprintf_s "smith" (start example_client) =
    Returned (None, Some AmbiguousResult) smith_sought /\
  exists users,
    FindUsers directory Sprintf_s "smith" (start example_client) =
      Returned (Some users, None) smith_sought /\
    length users = 2%nat /\
    forall i e, [alice; bob] !! i = Some e ->
      exists user, users !! i = Some user /\ is_record user ["cn"; "mail"] e.
Proof.
  apply (many_entries_Ambiguous_but_all_found directory Sprintf_s
           (start example_client) connected smith_sought 0%nat "smith"
           (ldap.mkSearchResult [alice; bob]));
    vm_compute; first [reflexivity | lia].
Defined.

Lemma second_failure_is_returned_witness :
  (SearchUser (flaky 2 directory) Sprintf_s "alice" (start example_client) =
     Returned (None, Some network_error)
       (gave_up connected 0%nat (user_request Sprintf_s example_client "alice")) /\
   FindUsers (flaky 2 directory) Sprintf_s "alice" (start example_client) =
     Returned (None, Some network_error)
       (gave_up connected 0%nat (user_request Sprintf_s example_client "alice"))) /\
  GetGroupsOfUser (flaky 2 directory) Sprintf_s "bob" (start example_client) =
    Returned (None, Some network_error)
      (gave_up connected 0%nat (group_request Sprintf_s example_client "bob")).
Proof.
  split.
  - apply (second_failure_is_returned (flaky 2 directory) Sprintf_s
             (start example_client) connected 0%nat "alice"
             network_error network_error); vm_compute; reflexivity.
  - apply (second_failure_is_returned (flaky 2 directory) Sprintf_s
             (start example_client) connected 0%nat "bob"
             network_error network_error); vm_compute; reflexivity.
Defined.

(** The directory of that run fails twice and then succeeds: a third
    search, had the client made one, would have found alice. *)
Lemma third_search_would_succeed :
  on_Search (flaky 2 directory)
    (history (gave_up connected 0%nat (user_request Sprintf_s example_client "alice")))
    0%nat (user_request Sprintf_s example_client "alice") =
    inl (ldap.mkSearchResult [alice]) /\
  sleeps (history (gave_up connected 0%nat
                     (user_request Sprintf_s example_client "alice"))) =
    [3 * time_Second].
Proof. split; vm_compute; reflexivity. Qed.

Lemma Authenticate_wrong_password_witness :
  (exists user,
     Authenticate directory Sprintf_s "alice" "guess" (start example_client) =
       Returned (false, Some user, Some invalid_credentials)
         (after connected [reader_bind; auth_search "alice"; alice_bind "guess"]) /\
     is_record user ["cn"; "mail"] alice) /\
  Authenticate directory Sprintf_s "carol" "guess" (start example_client) =
    Returned (false, None, Some NotFound)
      (after connected [reader_bind; auth_search "carol"]).
Proof.
  split.
  - apply (proj1 (Authenticate_wrong_password directory Sprintf_s
                    (start example_client) connected
                    (after connected [reader_bind])
                    (after connected [reader_bind; auth_search "alice"])
                    0%nat "alice" "guess" (ldap.mkSearchResult [alice])
                    eq_refl eq_refl eq_refl eq_refl) alice invalid_credentials);
      vm_compute; reflexivity.
  - apply (proj2 (Authenticate_wrong_password directory Sprintf_s
                    (start example_client) connected
                    (after connected [reader_bind])
                    (after connected [reader_bind; auth_search "carol"])
                    0%nat "carol" "guess" (ldap.mkSearchResult [])
                    eq_refl eq_refl eq_refl eq_refl));
      vm_compute; reflexivity.
Defined.

Lemma Authenticate_rebind_fails_witness :
  exists user,
    Authenticate (picky directory) Sprintf_s "alice" "wonderland"
      (start example_client) =
      Returned (true, Some user, Some invalid_credentials)
        (after connected
           [reader_bind; auth_search "alice"; alice_bind "wonderland"; reader_bind]) /\
    is_record user ["cn"; "mail"] alice.
Proof.
  apply (Authenticate_rebind_fails (picky directory) Sprintf_s
           (start example_client) connected
           (after connected [reader_bind])
           (after connected [reader_bind; auth_search "alice"])
           (after connected [reader_bind; auth_search "alice"; alice_bind "wonderland"])
           (after connected
              [reader_bind; auth_search "alice"; alice_bind "wonderland"; reader_bind])
           0%nat "alice" "wonderland" (ldap.mkSearchResult [alice]) alice
           invalid_credentials);
    try (vm_compute; reflexivity); vm_compute; discriminate.
Defined.

(** C8, as the claim has it, fails: alice authenticates on the example
    client, and the record returned has no key "dn" and holds her
    distinguished name under no key. *)
Lemma Authenticate_record_lacks_the_DN :
  exists user,
    Authenticate directory Sprintf_s "alice" "wonderland" (start example_client) =
      Returned (true, Some user, None)
        (after connected
           [reader_bind; auth_search "alice"; alice_bind "wonderland"; reader_bind]) /\
    user !! "dn" = None /\
    forall k, user !! k <> Some (ldap.DN alice).
Proof.
  exists (record_onto ∅ ["cn"; "mail"] alice). split; [|split].
  - vm_compute. reflexivity.
  - vm_compute. reflexivity.
  - intros k. rewrite record_onto_lookup.
    destruct (decide (k ∈ ["cn"; "mail"])) as [Hin|Hout].
    + apply elem_of_cons in Hin as [->|Hin]; [vm_compute; discriminate|].
      apply elem_of_cons in Hin as [->|Hin]; [vm_compute; discriminate|].
      inversion Hin.
    + rewrite lookup_empty. discriminate.
Qed.

Lemma Authenticate_record_is_configured_attributes_witness :
  exists user,
    Authenticate directory Sprintf_s "alice" "wonderland" (start example_client) =
      Returned (true, Some user, None)
        (after connected
           [reader_bind; auth_search "alice"; alice_bind "wonderland"; reader_bind]) /\
    is_record user ["cn"; "mail"] alice /\
    ("dn" ∉ ["cn"; "mail"] -> user !! "dn" = None) /\
    ldap.ReqAttributes (auth_request Sprintf_s example_client "alice") =
      ["cn"; "mail"; "dn"] /\
    alice_bind "wonderland" ∈
      history (after connected
                 [reader_bind; auth_search "alice"; alice_bind "wonderland";
                  reader_bind]).
Proof.
  apply (Authenticate_record_is_configured_attributes directory Sprintf_s
           (start example_client) connected
           (after connected [reader_bind])
           (after connected [reader_bind; auth_search "alice"])
           (after connected [reader_bind; auth_search "alice"; alice_bind "wonderland"])
           (after connected
              [reader_bind; auth_search "alice"; alice_bind "wonderland"; reader_bind])
           0%nat "alice" "wonderland" (ldap.mkSearchResult [alice]) alice);
    vm_compute; reflexivity.
Defined.

Lemma privileged_binds_need_both_credentials_witness :
  Authenticate directory Sprintf_s "alice" "wonderland" (start anonymous_client) =
    Authenticate_unprivileged directory Sprintf_s "alice" "wonderland"
      (start anonymous_client) /\
  exists r s' evs,
    Authenticate directory Sprintf_s "alice" "wonderland" (start example_client) =
      Returned r s' /\
    history s' = (history connected ++ reader_bind :: evs)%list /\
    (fst (fst r) = true -> last (history s') = Some reader_bind).
Proof.
  split.
  - apply (proj1 (privileged_binds_need_both_credentials directory Sprintf_s
                    (start anonymous_client) "alice" "wonderland")).
    left. reflexivity.
  - apply (proj2 (privileged_binds_need_both_credentials directory Sprintf_s
                    (start example_client) "alice" "wonderland"));
      try (vm_compute; reflexivity); vm_compute; discriminate.
Defined.

(** ** Footprints and compositions of the methods *)

Section Methods.

Variable srv : Server.
Variable Sprintf : string -> string -> string.

Lemma closes_app (h evs : list Event) : closes (h ++ evs) = (closes h + closes evs)%nat.
Proof. unfold closes. rewrite filter_app, length_app. reflexivity. Qed.

Lemma quiet_step_after (s s1 : State) (evs1 evs2 : list Event) :
  quiet_step s s1 evs1 ->
  closes evs2 = 0%nat -> dials evs2 = 0%nat ->
  quiet_step s (after s1 evs2) (evs1 ++ evs2).
Proof.
  intros (Hh & Hc & Hcl & Hd & Hkeep) Hcl2 Hd2. unfold quiet_step, after. simpl.
  rewrite Hh, <- app_assoc, closes_app, dials_app, Hcl, Hcl2, Hd2.
  repeat split; try lia; try exact Hc.
  - apply (Hkeep l). assumption.
  - destruct (Hkeep l) as [_ H0]; [assumption|]. lia.
Qed.

(** [Connect] always returns, and its step is quiet: it only dials. *)
Lemma Connect_step (s : State) :
  exists r s1 evs,
    Connect srv s = Returned r s1 /\
    quiet_step s s1 evs /\
    searches evs = 0%nat /\ binds evs = [] /\ sleeps evs = [] /\
    (forall req, searches_only req evs) /\
    (r = None -> exists l, Conn (client s1) = Some l).
Proof.
  unfold Connect, ldap_Dial, ldap_DialTLS, Conn_StartTLS, bind, get_client,
    past, emit, set_Conn, ret, quiet_step, searches_only.
  repeat case_match; simplify_eq; simpl; rewrite <- ?app_assoc; simpl;
    do 2 eexists;
    first [ eexists; split; [reflexivity|]; simpl;
            split; [split; [reflexivity|]|]
          | exists []; split; [reflexivity|]; simpl;
            split; [split; [symmetry; apply app_nil_r|]|] ];
    repeat split; try reflexivity; try (cbv [dials closes]; simpl; lia);
    try congruence; eauto;
    try (intros req l' req' Hin; repeat (apply elem_of_cons in Hin as [Hin|Hin];
                                         [discriminate Hin|]); inversion Hin).
Qed.

Lemma searches_only_app (req : ldap.SearchRequest) (evs1 evs2 : list Event) :
  searches_only req evs1 -> searches_only req evs2 ->
  searches_only req (evs1 ++ evs2).
Proof.
  intros H1 H2 l' req' Hin. apply elem_of_app in Hin as [Hin|Hin]; eauto.
Qed.

(** The search with its one repeat, as a step. *)
Lemma search_with_retry_step (l : ldap.Conn) (req : ldap.SearchRequest) (s : State) :
  exists r evs,
    search_with_retry srv l req s = Returned r (after s evs) /\
    closes evs = 0%nat /\ dials evs = 0%nat /\
    (searches evs <= 2)%nat /\ searches_only req evs /\
    binds evs = [] /\
    (sleeps evs = [] \/ sleeps evs = [time_Second * 3]).
Proof.
  rewrite search_with_retry_eq.
  destruct (on_Search srv (history s) l req) as [sr|err];
    do 2 eexists; (split; [reflexivity|]);
    repeat split; try reflexivity; try (cbv [searches]; simpl; lia);
    try (right; reflexivity); try (left; reflexivity);
    intros l' req' Hin;
    repeat (apply elem_of_cons in Hin as [Hin|Hin]; [congruence|]);
    inversion Hin.
Qed.

Lemma lookup_footprint_compose (req : ldap.SearchRequest) (s s1 : State)
  (evs1 evs2 : list Event) :
  quiet_step s s1 evs1 ->
  searches evs1 = 0%nat -> binds evs1 = [] -> sleeps evs1 = [] ->
  (forall req, searches_only req evs1) ->
  closes evs2 = 0%nat -> dials evs2 = 0%nat ->
  (searches evs2 <= 2)%nat -> searches_only req evs2 ->
  binds evs2 = [] ->
  (sleeps evs2 = [] \/ sleeps evs2 = [time_Second * 3]) ->
  lookup_footprint req s (after s1 evs2) (evs1 ++ evs2).
Proof.
  intros Hq Hs1 Hb1 Hsl1 Ho1 Hc2 Hd2 Hs2 Ho2 Hb2 Hsl2.
  unfold lookup_footprint.
  rewrite searches_app, binds_app, sleeps_app, Hs1, Hb1, Hsl1, Hb2. simpl.
  split; [exact (quiet_step_after _ _ _ _ Hq Hc2 Hd2)|].
  split; [exact Hs2|]. split; [|split; [reflexivity|exact Hsl2]].
  apply searches_only_app; [apply Ho1 | exact Ho2].
Qed.

Lemma lookup_footprint_connect_only (req : ldap.SearchRequest) (s s1 : State)
  (evs1 : list Event) :
  quiet_step s s1 evs1 ->
  searches evs1 = 0%nat -> binds evs1 = [] -> sleeps evs1 = [] ->
  (forall req, searches_only req evs1) ->
  lookup_footprint req s s1 evs1.
Proof.
  intros Hq Hs1 Hb1 Hsl1 Ho1. unfold lookup_footprint.
  rewrite Hs1, Hb1, Hsl1.
  split; [exact Hq|]. split; [lia|]. split; [apply Ho1|].
  split; [reflexivity|]. left. reflexivity.
Qed.

(** [SearchUser] returns whatever the search has answered. *)
Lemma SearchUser_returns_after (s s1 s2 : State) (l : ldap.Conn) (username : string)
  (r : ldap.SearchResult + error) :
  Connect srv s = Returned None s1 ->
  Conn (client s1) = Some l ->
  search_with_retry srv l (user_request Sprintf (client s) username) s1 =
    Returned r s2 ->
  exists res, SearchUser srv Sprintf username s = Returned res s2.
Proof.
  intros Hconnect Hl Hsearch. destruct r as [sr|err].
  - rewrite (SearchUser_found _ _ _ _ _ _ _ _ Hconnect Hl Hsearch).
    destruct (ldap.Entries sr) as [|e [|e' rest]]; simpl; eauto.
    rewrite (fill_user_returns _ _ _ e) by reflexivity. eauto.
  - destruct (SearchUser_search_failed _ _ _ _ _ _ _ _ Hconnect Hl Hsearch)
      as [H _]. eauto.
Qed.

Lemma FindUsers_returns_after (s s1 s2 : State) (l : ldap.Conn) (username : string)
  (r : ldap.SearchResult + error) :
  Connect srv s = Returned None s1 ->
  Conn (client s1) = Some l ->
  search_with_retry srv l (user_request Sprintf (client s) username) s1 =
    Returned r s2 ->
  exists res, FindUsers srv Sprintf username s = Returned res s2.
Proof.
  intros Hconnect Hl Hsearch. destruct r as [sr|err].
  - rewrite (FindUsers_found _ _ _ _ _ _ _ _ Hconnect Hl Hsearch).
    destruct (length (ldap.Entries sr) <? 1)%nat; eauto.
  - destruct (SearchUser_search_failed _ _ _ _ _ _ _ _ Hconnect Hl Hsearch)
      as [_ H]. eauto.
Qed.

Lemma GetGroupsOfUser_returns_after (s s1 s2 : State) (l : ldap.Conn)
  (username : string) (r : ldap.SearchResult + error) :
  Connect srv s = Returned None s1 ->
  Conn (client s1) = Some l ->
  search_with_retry srv l (group_request Sprintf (client s) username) s1 =
    Returned r s2 ->
  exists res, GetGroupsOfUser srv Sprintf username s = Returned res s2.
Proof.
  intros Hconnect Hl Hsearch. destruct r as [sr|err].
  - rewrite (GetGroupsOfUser_found _ _ _ _ _ _ _ _ Hconnect Hl Hsearch). eauto.
  - rewrite (GetGroupsOfUser_search_failed _ _ _ _ _ _ _ _ Hconnect Hl Hsearch).
    eauto.
Qed.

(** X4: SearchUser, FindUsers and GetGroupsOfUser always return (no nil
    connection is called, no index is out of range), whatever the server
    answers.  Each leaves every field of the client but Conn as it was,
    closes nothing, dials at most once and not at all on a client that
    holds a session, makes at most two searches, all with the one request
    it built, makes no bind, and sleeps either not at all or once for
    three seconds. *)
Theorem lookups_footprint (s : State) (username : string) :
  (exists r s' evs,
     SearchUser srv Sprintf username s = Returned r s' /\
     lookup_footprint (user_request Sprintf (client s) username) s s' evs) /\
  (exists r s' evs,
     FindUsers srv Sprintf username s = Returned r s' /\
     lookup_footprint (user_request Sprintf (client s) username) s s' evs) /\
  (exists r s' evs,
     GetGroupsOfUser srv Sprintf username s = Returned r s' /\
     lookup_footprint (group_request Sprintf (client s) username) s s' evs).
Proof.
  destruct (Connect_step s)
    as (r & s1 & evs1 & Hconnect & Hq & Hs & Hb & Hsl & Ho & Hok).
  destruct r as [err|].
  - repeat split; exists (None, Some err), s1, evs1;
      (split; [|apply lookup_footprint_connect_only; assumption]).
    + unfold SearchUser, bind. rewrite Hconnect. reflexivity.
    + unfold FindUsers, bind. rewrite Hconnect. reflexivity.
    + unfold GetGroupsOfUser, bind. rewrite Hconnect. reflexivity.
  - destruct (Hok eq_refl) as [l Hl].
    destruct (search_with_retry_step l (user_request Sprintf (client s) username) s1)
      as (ru & evu & Hu & Hu').
    destruct (search_with_retry_step l (group_request Sprintf (client s) username) s1)
      as (rg & evg & Hg & Hg').
    destruct (SearchUser_returns_after _ _ _ _ _ _ Hconnect Hl Hu) as [res1 H1].
    destruct (FindUsers_returns_after _ _ _ _ _ _ Hconnect Hl Hu) as [res2 H2].
    destruct (GetGroupsOfUser_returns_after _ _ _ _ _ _ Hconnect Hl Hg) as [res3 H3].
    repeat split.
    + exists res1, (after s1 evu), (evs1 ++ evu)%list. split; [exact H1|].
      apply lookup_footprint_compose; tauto.
    + exists res2, (after s1 evu), (evs1 ++ evu)%list. split; [exact H2|].
      apply lookup_footprint_compose; tauto.
    + exists res3, (after s1 evg), (evs1 ++ evg)%list. split; [exact H3|].
      apply lookup_footprint_compose; tauto.
Qed.

Lemma Authenticate_footprint_compose (req : ldap.SearchRequest) (s s1 : State)
  (evs1 evs2 : list Event) :
  quiet_step s s1 evs1 ->
  searches evs1 = 0%nat -> binds evs1 = [] -> sleeps evs1 = [] ->
  (forall req, searches_only req evs1) ->
  closes evs2 = 0%nat -> dials evs2 = 0%nat ->
  (searches evs2 <= 1)%nat -> searches_only req evs2 ->
  (length (binds evs2) <= 3)%nat ->
  sleeps evs2 = [] ->
  Authenticate_footprint req s (after s1 evs2) (evs1 ++ evs2).
Proof.
  intros Hq Hs1 Hb1 Hsl1 Ho1 Hc2 Hd2 Hs2 Ho2 Hb2 Hsl2.
  unfold Authenticate_footprint.
  rewrite searches_app, binds_app, sleeps_app, Hs1, Hb1, Hsl1, Hsl2. simpl.
  split; [exact (quiet_step_after _ _ _ _ Hq Hc2 Hd2)|].
  split; [exact Hs2|]. split; [|split; [exact Hb2|reflexivity]].
  apply searches_only_app; [apply Ho1 | exact Ho2].
Qed.

(** [Authenticate] after a successful connect, as a step. *)
Lemma Authenticate_step (s s1 : State) (l : ldap.Conn) (username password : string) :
  Connect srv s = Returned None s1 ->
  Conn (client s1) = Some l ->
  exists r evs,
    Authenticate srv Sprintf username password s = Returned r (after s1 evs) /\
    closes evs = 0%nat /\ dials evs = 0%nat /\
    (searches evs <= 1)%nat /\
    searches_only (auth_request Sprintf (client s) username) evs /\
    (length (binds evs) <= 3)%nat /\
    sleeps evs = [].
Proof.
  intros Hconnect Hl.
  rewrite (Authenticate_connected _ _ _ _ _ _ _ Hconnect Hl).
  unfold first_bind, Authenticate_entries, Conn_Search, Conn_Bind, bind, past,
    emit, ret, after, searches_only.
  repeat case_match; simplify_eq; simpl; rewrite <- ?app_assoc; simpl;
    do 2 eexists; (split; [reflexivity|]);
    repeat split; try reflexivity;
    try (cbv [closes dials searches binds]; simpl; lia);
    intros l' req' Hin;
    repeat (apply elem_of_cons in Hin as [Hin|Hin]; [congruence|]);
    inversion Hin.
Qed.

(** X5: Authenticate always returns, whatever the server answers.  It
    leaves every field of the client but Conn as it was, closes nothing,
    dials at most once and not at all on a client that holds a session,
    makes at most one search (the request it built: a failed search is not
    repeated), at most three binds, and never sleeps. *)
Theorem Authenticate_returns_with_footprint (s : State)
  (username password : string) :
  exists r s' evs,
    Authenticate srv Sprintf username password s = Returned r s' /\
    Authenticate_footprint (auth_request Sprintf (client s) username) s s' evs.
Proof.
  destruct (Connect_step s)
    as (r & s1 & evs1 & Hconnect & Hq & Hs & Hb & Hsl & Ho & Hok).
  destruct r as [err|].
  - exists (false, None, Some err), s1, evs1. split.
    + unfold Authenticate, bind. rewrite Hconnect. reflexivity.
    + unfold Authenticate_footprint. rewrite Hs, Hb, Hsl.
      split; [exact Hq|]. split; [lia|]. split; [apply Ho|].
      split; [simpl; lia|reflexivity].
  - destruct (Hok eq_refl) as [l Hl].
    destruct (Authenticate_step s s1 l username password Hconnect Hl)
      as (res & evs2 & Hres & Hfacts).
    exists res, (after s1 evs2), (evs1 ++ evs2)%list. split; [exact Hres|].
    apply Authenticate_footprint_compose; tauto.
Qed.

(** *** Connect *)

Lemma Connect_unconnected_dials (s s1 : State) (r : option error) :
  Conn (client s) = None ->
  Connect srv s = Returned r s1 ->
  dials (history s1) = S (dials (history s)).
Proof.
  unfold Connect, ldap_Dial, ldap_DialTLS, Conn_StartTLS, bind, get_client,
    past, emit, set_Conn, ret.
  intros Hnil H. rewrite Hnil in H.
  repeat case_match; simplify_eq; simpl;
    rewrite <- ?app_assoc, dials_app; cbv [dials]; simpl; lia.
Qed.

(** X1: on a client without a session a successful Connect stores the new
    connection in Conn and has made, at the address host:port, either one
    plain dial followed by StartTLS on that connection with certificate
    verification switched off (UseSSL false), or one TLS dial that verifies
    the certificate against ServerName (UseSSL true). *)
Theorem Connect_chooses_transport (s s1 : State) :
  Conn (client s) = None ->
  Connect srv s = Returned None s1 ->
  client s1 = with_Conn (client s) (Some (length (history s))) /\
  history s1 =
    (history s ++
     if UseSSL (client s)
     then [EvDialTLS "tcp" (address (client s))
             (tls.mkConfig false (ServerName (client s)))]
     else [EvDial "tcp" (address (client s));
           EvStartTLS (length (history s)) (tls.mkConfig true "")])%list.
Proof.
  unfold Connect, ldap_Dial, ldap_DialTLS, Conn_StartTLS, bind, get_client,
    past, emit, set_Conn, ret, address.
  intros Hnil H. rewrite Hnil in H.
  destruct (UseSSL (client s)); simpl in H;
    repeat case_match; simplify_eq; simpl; rewrite <- ?app_assoc;
    split; reflexivity.
Qed.

(** X2: a Connect that fails was made on a client without a session and
    leaves the client as it was, still without a session: it has dialed
    once and closed nothing (a connection that was dialed and then refused
    StartTLS is dropped open), and the next Connect dials again. *)
Theorem Connect_failure_leaves_no_session (s s1 : State) (err : error) :
  Connect srv s = Returned (Some err) s1 ->
  Conn (client s) = None /\
  client s1 = client s /\
  (exists evs,
     history s1 = (history s ++ evs)%list /\
     dials evs = 1%nat /\ closes evs = 0%nat) /\
  (forall r s2,
     Connect srv s1 = Returned r s2 ->
     dials (history s2) = S (dials (history s1))).
Proof.
  intros H.
  assert (Conn (client s) = None /\ client s1 = client s /\
          exists evs, history s1 = (history s ++ evs)%list /\
                      dials evs = 1%nat /\ closes evs = 0%nat) as (Hnil & Hc & Hevs).
  { revert H.
    unfold Connect, ldap_Dial, ldap_DialTLS, Conn_StartTLS, bind, get_client,
      past, emit, set_Conn, ret.
    intros H. repeat case_match; simplify_eq; simpl; rewrite <- ?app_assoc;
      (split; [first [assumption|reflexivity]|]); (split; [reflexivity|]);
      eexists; (split; [reflexivity|]); split; reflexivity. }
  split; [exact Hnil|]. split; [exact Hc|]. split; [exact Hevs|].
  intros r s2 Hnext. apply (Connect_unconnected_dials _ _ r); [|exact Hnext].
  rewrite Hc. exact Hnil.
Qed.

(** X3: when Connect fails, every method returns its error at once:
    SearchUser, FindUsers and GetGroupsOfUser return no result and the
    error, Authenticate returns false, no record and the error, and none
    of them makes a call after the failed connect. *)
Theorem Connect_error_is_returned (s s1 : State) (err : error)
  (username password : string) :
  Connect srv s = Returned (Some err) s1 ->
  SearchUser srv Sprintf username s = Returned (None, Some err) s1 /\
  FindUsers srv Sprintf username s = Returned (None, Some err) s1 /\
  GetGroupsOfUser srv Sprintf username s = Returned (None, Some err) s1 /\
  Authenticate srv Sprintf username password s =
    Returned (false, None, Some err) s1.
Proof.
  intros H. repeat split.
  - unfold SearchUser, bind. rewrite H. reflexivity.
  - unfold FindUsers, bind. rewrite H. reflexivity.
  - unfold GetGroupsOfUser, bind. rewrite H. reflexivity.
  - unfold Authenticate, bind. rewrite H. reflexivity.
Qed.

(** *** The lookups *)

Lemma search_with_retry_second_answer (l : ldap.Conn) (req : ldap.SearchRequest)
  (s : State) (err : error) (sr : ldap.SearchResult) :
  on_Search srv (history s) l req = inr err ->
  on_Search srv (history s ++ [EvSearch l req]) l req = inl sr ->
  search_with_retry srv l req s = Returned (inl sr) (repeated s l req).
Proof.
  intros H1 H2. rewrite search_with_retry_eq, H1, H2. reflexivity.
Qed.

(** X6: one failed search is survived.  When the first search fails and
    its repeat answers, each lookup returns what the answer holds
    (SearchUser the record of the one entry, FindUsers the records of all
    entries, GetGroupsOfUser the cn values), and the history ends with the
    log line and a sleep of three seconds made after the search that
    succeeded. *)
Theorem one_failed_search_is_survived (s s1 : State) (l : ldap.Conn)
  (username : string) (err : error) (sr : ldap.SearchResult) :
  Connect srv s = Returned None s1 ->
  Conn (client s1) = Some l ->
  (on_Search srv (history s1) l (user_request Sprintf (client s) username) =
     inr err ->
   on_Search srv
     (history s1 ++ [EvSearch l (user_request Sprintf (client s) username)])
     l (user_request Sprintf (client s) username) = inl sr ->
   (forall e, ldap.Entries sr = [e] ->
      SearchUser srv Sprintf username s =
        Returned (Some (record_onto ∅ (Attributes (client s)) e), None)
          (repeated s1 l (user_request Sprintf (client s) username))) /\
   ((1 <= length (ldap.Entries sr))%nat ->
      FindUsers srv Sprintf username s =
        Returned
          (Some (map (record_onto ∅ (Attributes (client s))) (ldap.Entries sr)),
           None)
          (repeated s1 l (user_request Sprintf (client s) username)))) /\
  (on_Search srv (history s1) l (group_request Sprintf (client s) username) =
     inr err ->
   on_Search srv
     (history s1 ++ [EvSearch l (group_request Sprintf (client s) username)])
     l (group_request Sprintf (client s) username) = inl sr ->
   GetGroupsOfUser srv Sprintf username s =
     Returned
       (Some (map (fun e => ldap.GetAttributeValue e "cn") (ldap.Entries sr)), None)
       (repeated s1 l (group_request Sprintf (client s) username))).
Proof.
  intros Hconnect Hl. split; intros H1 H2;
    pose proof (search_with_retry_second_answer _ _ _ _ _ H1 H2) as Hsearch.
  - split.
    + intros e Hone.
      rewrite (SearchUser_found _ _ _ _ _ _ _ _ Hconnect Hl Hsearch), Hone. simpl.
      rewrite (fill_user_returns _ _ _ e) by reflexivity. reflexivity.
    + intros Hsome.
      rewrite (FindUsers_found _ _ _ _ _ _ _ _ Hconnect Hl Hsearch).
      assert ((length (ldap.Entries sr) <? 1)%nat = false) as ->
        by (apply Nat.ltb_ge; lia).
      reflexivity.
  - exact (GetGroupsOfUser_found _ _ _ _ _ _ _ _ Hconnect Hl Hsearch).
Qed.

(** X7: GetGroupsOfUser asks for the attribute "cn" alone, whatever the
    configured attributes are, and returns one name for each entry of the
    answer, in the order of the answer: the first "cn" value of the entry,
    or the empty string for an entry without one. *)
Theorem GetGroupsOfUser_lists_cn (s s1 s2 : State) (l : ldap.Conn)
  (username : string) (sr : ldap.SearchResult) :
  Connect srv s = Returned None s1 ->
  Conn (client s1) = Some l ->
  search_with_retry srv l (group_request Sprintf (client s) username) s1 =
    Returned (inl sr) s2 ->
  ldap.ReqAttributes (group_request Sprintf (client s) username) = ["cn"] /\
  exists groups,
    GetGroupsOfUser srv Sprintf username s = Returned (Some groups, None) s2 /\
    length groups = length (ldap.Entries sr) /\
    (forall i e, ldap.Entries sr !! i = Some e ->
       groups !! i = Some (ldap.GetAttributeValue e "cn")) /\
    (forall i e, ldap.Entries sr !! i = Some e ->
       (forall a, a ∈ ldap.Attributes e -> ldap.Name a <> "cn") ->
       groups !! i = Some "").
Proof.
  intros Hconnect Hl Hsearch. split; [reflexivity|].
  exists (map (fun e => ldap.GetAttributeValue e "cn") (ldap.Entries sr)).
  split; [exact (GetGroupsOfUser_found _ _ _ _ _ _ _ _ Hconnect Hl Hsearch)|].
  split; [apply length_map|]. split.
  - intros i e Hi. rewrite list_lookup_fmap, Hi. reflexivity.
  - intros i e Hi Hno. rewrite list_lookup_fmap, Hi. simpl.
    rewrite (GetAttributeValue_missing e "cn" Hno). reflexivity.
Qed.

(** X8: on an answer of exactly one entry FindUsers and SearchUser agree:
    FindUsers returns the one-element list that holds the record
    SearchUser returns. *)
Theorem FindUsers_agrees_with_SearchUser (s s1 s2 : State) (l : ldap.Conn)
  (username : string) (sr : ldap.SearchResult) (e : ldap.Entry) :
  Connect srv s = Returned None s1 ->
  Conn (client s1) = Some l ->
  search_with_retry srv l (user_request Sprintf (client s) username) s1 =
    Returned (inl sr) s2 ->
  ldap.Entries sr = [e] ->
  exists user,
    SearchUser srv Sprintf username s = Returned (Some user, None) s2 /\
    FindUsers srv Sprintf username s = Returned (Some [user], None) s2.
Proof.
  intros Hconnect Hl Hsearch Hone.
  exists (record_onto ∅ (Attributes (client s)) e). split.
  - rewrite (SearchUser_found _ _ _ _ _ _ _ _ Hconnect Hl Hsearch), Hone. simpl.
    rewrite (fill_user_returns _ _ _ e) by reflexivity. reflexivity.
  - rewrite (FindUsers_found _ _ _ _ _ _ _ _ Hconnect Hl Hsearch), Hone.
    reflexivity.
Qed.

(** *** Authenticate *)

(** X9: when the client holds the reader's credentials and the bind with
    them fails, Authenticate returns false, no record and the error of
    that bind, and stops there: no search is made and the user's password
    is not sent. *)
Theorem Authenticate_reader_bind_fails (s s1 : State) (l : ldap.Conn)
  (username password : string) (err : error) :
  Connect srv s = Returned None s1 ->
  Conn (client s1) = Some l ->
  BindDN (client s) <> "" ->
  BindPassword (client s) <> "" ->
  on_Bind srv (history s1) l (BindDN (client s)) (BindPassword (client s)) =
    Some err ->
  Authenticate srv Sprintf username password s =
    Returned (false, None, Some err)
      (after s1 [EvBind l (BindDN (client s)) (BindPassword (client s))]).
Proof.
  intros Hconnect Hl Hdn Hpw Hbind.
  rewrite (Authenticate_connected _ _ _ _ _ _ _ Hconnect Hl).
  unfold first_bind. rewrite (privileged_true _ Hdn Hpw), Conn_Bind_eq, Hbind.
  reflexivity.
Qed.

(** X10: Authenticate does not repeat a failed search.  When its one
    search fails it returns false, no record and the error of the search,
    with nothing after the search in the history, whatever a second
    search would have answered. *)
Theorem Authenticate_search_not_repeated (s s1 s2 : State) (l : ldap.Conn)
  (username password : string) (err : error) :
  Connect srv s = Returned None s1 ->
  Conn (client s1) = Some l ->
  first_bind srv l (client s) s1 = Returned None s2 ->
  on_Search srv (history s2) l (auth_request Sprintf (client s) username) =
    inr err ->
  Authenticate srv Sprintf username password s =
    Returned (false, None, Some err)
      (after s2 [EvSearch l (auth_request Sprintf (client s) username)]).
Proof.
  intros Hconnect Hl Hfirst Hsearch.
  rewrite (Authenticate_connected _ _ _ _ _ _ _ Hconnect Hl), Hfirst.
  rewrite Conn_Search_eq, Hsearch. reflexivity.
Qed.

(** X11: when the search answers with more than one entry, Authenticate
    returns false, no record and the error "Too many entries returned",
    and the search is its last call: the password is sent in no bind. *)
Theorem Authenticate_ambiguous_user (s s1 s2 s3 : State) (l : ldap.Conn)
  (username password : string) (sr : ldap.SearchResult) :
  Connect srv s = Returned None s1 ->
  Conn (client s1) = Some l ->
  first_bind srv l (client s) s1 = Returned None s2 ->
  Conn_Search srv l (auth_request Sprintf (client s) username) s2 =
    Returned (inl sr) s3 ->
  (1 < length (ldap.Entries sr))%nat ->
  Authenticate srv Sprintf username password s =
    Returned (false, None, Some AmbiguousResult) s3 /\
  last (history s3) =
    Some (EvSearch l (auth_request Sprintf (client s) username)).
Proof.
  intros Hconnect Hl Hfirst Hsearch Hmany. split.
  - rewrite (Authenticate_searched _ _ _ _ _ _ _ _ _ _ Hconnect Hl Hfirst Hsearch).
    unfold Authenticate_entries.
    destruct (ldap.Entries sr) as [|e [|e' rest]]; simpl in Hmany;
      [lia|lia|reflexivity].
  - rewrite Conn_Search_eq in Hsearch. inversion Hsearch. apply last_snoc.
Qed.

(** X12: without the reader's credentials a successful Authenticate ends
    with the user's bind: it returns true, the record and no error, and
    the session stays bound as the user who authenticated. *)
Theorem Authenticate_unprivileged_stays_bound (s s1 s3 : State) (l : ldap.Conn)
  (username password : string) (sr : ldap.SearchResult) (e : ldap.Entry) :
  BindDN (client s) = "" \/ BindPassword (client s) = "" ->
  Connect srv s = Returned None s1 ->
  Conn (client s1) = Some l ->
  Conn_Search srv l (auth_request Sprintf (client s) username) s1 =
    Returned (inl sr) s3 ->
  ldap.Entries sr = [e] ->
  on_Bind srv (history s3) l (ldap.DN e) password = None ->
  exists user,
    Authenticate srv Sprintf username password s =
      Returned (true, Some user, None)
        (after s3 [EvBind l (ldap.DN e) password]) /\
    is_record user (Attributes (client s)) e.
Proof.
  intros Hempty Hconnect Hl Hsearch Hone Hbind.
  pose proof (privileged_false _ Hempty) as Hpriv.
  assert (first_bind srv l (client s) s1 = Returned None s1) as Hfirst
    by (unfold first_bind; rewrite Hpriv; reflexivity).
  exists (record_onto ∅ (Attributes (client s)) e). split.
  - rewrite (Authenticate_searched _ _ _ _ _ _ _ _ _ _ Hconnect Hl Hfirst Hsearch).
    unfold Authenticate_entries. rewrite Hone, Conn_Bind_eq, Hbind, Hpriv.
    reflexivity.
  - apply record_onto_is_record.
Qed.

(** *** One session for many calls *)

(** X13: the session a method opens is the session the next method uses.
    When the Connect inside SearchUser succeeds, SearchUser returns with
    the client connected as Connect left it, and a GetGroupsOfUser that
    follows dials nothing and leaves the client as it is. *)
Theorem session_is_reused (s s1 : State) (username username' : string) :
  Connect srv s = Returned None s1 ->
  exists r s',
    SearchUser srv Sprintf username s = Returned r s' /\
    client s' = client s1 /\
    exists r' s'',
      GetGroupsOfUser srv Sprintf username' s' = Returned r' s'' /\
      client s'' = client s' /\
      dials (history s'') = dials (history s').
Proof.
  intros Hconnect.
  destruct (Connect_ok_session _ _ _ Hconnect) as [l Hl].
  destruct (search_with_retry_step l (user_request Sprintf (client s) username) s1)
    as (ru & evu & Hu & _).
  destruct (SearchUser_returns_after _ _ _ _ _ _ Hconnect Hl Hu) as [res Hres].
  exists res, (after s1 evu). split; [exact Hres|]. split; [reflexivity|].
  assert (Connect srv (after s1 evu) = Returned None (after s1 evu)) as Hagain
    by (apply (Connect_connected _ _ l); exact Hl).
  destruct (search_with_retry_step l
              (group_request Sprintf (client (after s1 evu)) username')
              (after s1 evu)) as (rg & evg & Hg & _ & Hd & _).
  destruct (GetGroupsOfUser_returns_after _ _ _ _ _ _ Hagain Hl Hg) as [res' Hres'].
  exists res', (after (after s1 evu) evg). split; [exact Hres'|].
  split; [reflexivity|]. simpl. rewrite dials_app, Hd. lia.
Qed.

(** X14: Close does not end the use of the session.  On a client that
    holds a session, a SearchUser made after Close dials nothing and sends
    its search on the connection that was closed. *)
Theorem SearchUser_after_Close_uses_closed_connection (s : State) (l : ldap.Conn)
  (username : string) :
  Conn (client s) = Some l ->
  exists r evs,
    (let* _ := Close in SearchUser srv Sprintf username) s =
      Returned r
        (after s (EvClose l ::
                  EvSearch l (user_request Sprintf (client s) username) :: evs)) /\
    dials evs = 0%nat.
Proof.
  intros Hl.
  assert (Close s = Returned tt (after s [EvClose l])) as Hclose
    by (unfold Close, bind, get_client; rewrite Hl; reflexivity).
  assert (Connect srv (after s [EvClose l]) = Returned None (after s [EvClose l]))
    as Hconnect by (apply (Connect_connected _ _ l); exact Hl).
  pose proof (search_with_retry_eq srv l
                (user_request Sprintf (client (after s [EvClose l])) username)
                (after s [EvClose l])) as Hsearch.
  destruct (on_Search srv (history (after s [EvClose l])) l
              (user_request Sprintf (client (after s [EvClose l])) username))
    as [sr|err];
    destruct (SearchUser_returns_after _ _ _ _ _ _ Hconnect Hl Hsearch)
      as [res Hres];
    exists res; eexists; unfold bind; rewrite Hclose, Hres;
    (split; [unfold after; simpl; rewrite <- app_assoc; reflexivity|]);
    reflexivity.
Qed.

End Methods.

(** ** The footprints and compositions on the example directory *)

Lemma Connect_chooses_transport_witness :
  (client connected = with_Conn example_client (Some 0%nat) /\
   history connected =
     [EvDial "tcp" "ldap.example.com:389";
      EvStartTLS 0%nat (tls.mkConfig true "")]) /\
  (client connected_tls = with_Conn anonymous_client (Some 0%nat) /\
   history connected_tls =
     [EvDialTLS "tcp" "ldap.example.com:636"
        (tls.mkConfig false "ldap.example.com")]).
Proof.
  split.
  - apply (Connect_chooses_transport directory (start example_client) connected);
      vm_compute; reflexivity.
  - apply (Connect_chooses_transport directory (start anonymous_client)
             connected_tls); vm_compute; reflexivity.
Defined.

Lemma Connect_failure_leaves_no_session_witness :
  Conn (client (start example_client)) = None /\
  client refused = client (start example_client) /\
  (exists evs,
     history refused = (history (start example_client) ++ evs)%list /\
     dials evs = 1%nat /\ closes evs = 0%nat) /\
  (forall r s2,
     Connect (plain_only directory) refused = Returned r s2 ->
     dials (history s2) = S (dials (history refused))).
Proof.
  apply (Connect_failure_leaves_no_session (plain_only directory)
           (start example_client) refused (ldap_Error 2 "Protocol Error")).
  vm_compute. reflexivity.
Defined.

Lemma Connect_error_is_returned_witness :
  SearchUser unreachable Sprintf_s "alice" (start example_client) =
    Returned (None, Some network_error) unreached /\
  FindUsers unreachable Sprintf_s "alice" (start example_client) =
    Returned (None, Some network_error) unreached /\
  GetGroupsOfUser unreachable Sprintf_s "alice" (start example_client) =
    Returned (None, Some network_error) unreached /\
  Authenticate unreachable Sprintf_s "alice" "wonderland" (start example_client) =
    Returned (false, None, Some network_error) unreached.
Proof.
  apply (Connect_error_is_returned unreachable Sprintf_s (start example_client)
           unreached network_error "alice" "wonderland").
  vm_compute. reflexivity.
Defined.

Lemma one_failed_search_is_survived_witness :
  (SearchUser (flaky 1 directory) Sprintf_s "alice" (start example_client) =
     Returned (Some (record_onto ∅ ["cn"; "mail"] alice), None)
       (repeated connected 0%nat (user_request Sprintf_s example_client "alice")) /\
   FindUsers (flaky 1 directory) Sprintf_s "alice" (start example_client) =
     Returned (Some [record_onto ∅ ["cn"; "mail"] alice], None)
       (repeated connected 0%nat (user_request Sprintf_s example_client "alice"))) /\
  GetGroupsOfUser (flaky 1 directory) Sprintf_s "bob" (start example_client) =
    Returned (Some ["admins"; "devs"], None)
      (repeated connected 0%nat (group_request Sprintf_s example_client "bob")).
Proof.
  assert (Connect (flaky 1 directory) (start example_client) =
            Returned None connected) as Hconnect by (vm_compute; reflexivity).
  assert (Conn (client connected) = Some 0%nat) as Hl by (vm_compute; reflexivity).
  split.
  - destruct (one_failed_search_is_survived (flaky 1 directory) Sprintf_s
                (start example_client) connected 0%nat "alice" network_error
                (ldap.mkSearchResult [alice]) Hconnect Hl) as [Huser _].
    destruct Huser as [Hone Hall]; [vm_compute; reflexivity ..|].
    split.
    + exact (Hone alice eq_refl).
    + apply Hall. vm_compute. lia.
  - destruct (one_failed_search_is_survived (flaky 1 directory) Sprintf_s
                (start example_client) connected 0%nat "bob" network_error
                (ldap.mkSearchResult [admins; devs]) Hconnect Hl) as [_ Hgroups].
    apply Hgroups; vm_compute; reflexivity.
Defined.

Lemma GetGroupsOfUser_lists_cn_witness :
  ldap.ReqAttributes (group_request Sprintf_s example_client "bob") = ["cn"] /\
  exists groups,
    GetGroupsOfUser directory Sprintf_s "bob" (start example_client) =
      Returned (Some groups, None) bob_groups_sought /\
    length groups = 2%nat /\
    (forall i e, [admins; devs] !! i = Some e ->
       groups !! i = Some (ldap.GetAttributeValue e "cn")) /\
    (forall i e, [admins; devs] !! i = Some e ->
       (forall a, a ∈ ldap.Attributes e -> ldap.Name a <> "cn") ->
       groups !! i = Some "").
Proof.
  apply (GetGroupsOfUser_lists_cn directory Sprintf_s (start example_client)
           connected bob_groups_sought 0%nat "bob"
           (ldap.mkSearchResult [admins; devs]));
    vm_compute; reflexivity.
Defined.

Lemma FindUsers_agrees_with_SearchUser_witness :
  exists user,
    SearchUser directory Sprintf_s "alice" (start example_client) =
      Returned (Some user, None) alice_sought /\
    FindUsers directory Sprintf_s "alice" (start example_client) =
      Returned (Some [user], None) alice_sought.
Proof.
  apply (FindUsers_agrees_with_SearchUser directory Sprintf_s
           (start example_client) connected alice_sought 0%nat "alice"
           (ldap.mkSearchResult [alice]) alice);
    vm_compute; reflexivity.
Defined.

Lemma Authenticate_reader_bind_fails_witness :
  Authenticate directory Sprintf_s "alice" "wonderland" (start misconfigured_client) =
    Returned (false, None, Some invalid_credentials)
      (after connected_stale [EvBind 0%nat "cn=reader,dc=example,dc=com" "stale"]).
Proof.
  apply (Authenticate_reader_bind_fails directory Sprintf_s
           (start misconfigured_client) connected_stale 0%nat "alice" "wonderland"
           invalid_credentials);
    try (vm_compute; reflexivity); vm_compute; discriminate.
Defined.

Lemma Authenticate_search_not_repeated_witness :
  Authenticate (flaky 1 directory) Sprintf_s "alice" "wonderland"
    (start example_client) =
    Returned (false, None, Some network_error)
      (after connected [reader_bind; auth_search "alice"]).
Proof.
  apply (Authenticate_search_not_repeated (flaky 1 directory) Sprintf_s
           (start example_client) connected (after connected [reader_bind])
           0%nat "alice" "wonderland" network_error);
    vm_compute; reflexivity.
Defined.

Lemma Authenticate_ambiguous_user_witness :
  Authenticate directory Sprintf_s "smith" "wonderland" (start example_client) =
    Returned (false, None, Some AmbiguousResult)
      (after connected [reader_bind; auth_search "smith"]) /\
  last (history (after connected [reader_bind; auth_search "smith"])) =
    Some (auth_search "smith").
Proof.
  apply (Authenticate_ambiguous_user directory Sprintf_s (start example_client)
           connected (after connected [reader_bind])
           (after connected [reader_bind; auth_search "smith"])
           0%nat "smith" "wonderland" (ldap.mkSearchResult [alice; bob]));
    vm_compute; first [reflexivity | lia].
Defined.

Lemma Authenticate_unprivileged_stays_bound_witness :
  exists user,
    Authenticate directory Sprintf_s "alice" "wonderland" (start anonymous_client) =
      Returned (true, Some user, None)
        (after connected_tls [auth_search "alice"; alice_bind "wonderland"]) /\
    is_record user ["cn"; "mail"] alice.
Proof.
  apply (Authenticate_unprivileged_stays_bound directory Sprintf_s
           (start anonymous_client) connected_tls
           (after connected_tls [auth_search "alice"])
           0%nat "alice" "wonderland" (ldap.mkSearchResult [alice]) alice);
    try (vm_compute; reflexivity).
  left. reflexivity.
Defined.

Lemma session_is_reused_witness :
  exists r s',
    SearchUser directory Sprintf_s "alice" (start example_client) = Returned r s' /\
    client s' = client connected /\
    exists r' s'',
      GetGroupsOfUser directory Sprintf_s "bob" s' = Returned r' s'' /\
      client s'' = client s' /\
      dials (history s'') = dials (history s').
Proof.
  apply (session_is_reused directory Sprintf_s (start example_client) connected
           "alice" "bob").
  vm_compute. reflexivity.
Defined.

Lemma SearchUser_after_Close_uses_closed_connection_witness :
  exists r evs,
    (let* _ := Close in SearchUser directory Sprintf_s "alice") connected =
      Returned r
        (after connected
           (EvClose 0%nat ::
            EvSearch 0%nat (user_request Sprintf_s (client connected) "alice") ::
            evs)) /\
    dials evs = 0%nat.
Proof.
  apply (SearchUser_after_Close_uses_closed_connection directory Sprintf_s
           connected 0%nat "alice").
  vm_compute. reflexivity.
Defined.
